(** * The voice-command engine of dasie (src/command_engine.py)

    A shallow embedding of [CommandEngine]: the whitelist of commands, the
    matcher, the executor and the in-memory audit history, followed by the
    properties of the natural-language specification that concern them.

    Modelling choices, each stated where it is made:
    - A Python [str] is the byte string of its UTF-8 form ([string]).
      [str.lower] and [str.strip], which depend on the Unicode tables,
      are left open: the development holds for whatever they are, and
      what some theorems need of them is stated as laws.  Their ASCII
      versions are the instance on which examples are run.
    - A [dict] whose iteration order matters (the whitelist, the fuzzy
      table) is an association list in insertion order; a [dict] used only
      as a map (an environment block) is a [gmap].
    - Objects with identity (the history list, its entries, [os.environ]
      and its copies) live in a store indexed by locations.
    - Everything the engine asks of the outside (clock, file system, child
      processes) is answered by an oracle that sees the whole interaction
      so far; every call and its answer is recorded in a trace.
    - [loguru] calls have no effect on the results or on the state of the
      engine and are left out, and with them whatever the sinks of the
      logger do with the messages, such as writing them to a log file
      of their own: the files of the model are those the engine opens
      itself. *)

From Stdlib Require Import Ascii String NArith ZArith DecimalString DecimalNat.
From stdpp Require Import base strings list gmap.

(** ** Python string operations *)

Module PyStr.

(** The two methods of [str] whose result depends on the Unicode
    tables, [s.lower()] and [s.strip()], on the UTF-8 form of the
    text.  They are parameters of everything that follows. *)
Class Text : Type := {
  lower : string → string;
  strip : string → string
}.

(** *** The ASCII versions of [lower] and [strip] *)

(** [c.lower()] for one byte: 'A'..'Z' go to 'a'..'z'. *)
Definition ascii_lower_char (c : ascii) : ascii :=
  let n := N_of_ascii c in
  if ((65 <=? n) && (n <=? 90))%N then ascii_of_N (n + 32) else c.

(** [s.lower()] for a text of ASCII characters. *)
Fixpoint ascii_lower (s : string) : string :=
  match s with
  | EmptyString => EmptyString
  | String c s' => String (ascii_lower_char c) (ascii_lower s')
  end.

(** [c.isspace()] on the ASCII range: TAB, LF, VT, FF, CR, the four
    separators FS, GS, RS, US, and the blank. *)
Definition ascii_isspace (c : ascii) : bool :=
  let n := N_of_ascii c in
  (((9 <=? n) && (n <=? 13)) || ((28 <=? n) && (n <=? 32)))%N.

(** [s.lstrip()] for a text of ASCII characters. *)
Fixpoint ascii_lstrip (s : string) : string :=
  match s with
  | EmptyString => EmptyString
  | String c s' => if ascii_isspace c then ascii_lstrip s' else s
  end.

(** [s.rstrip()] for a text of ASCII characters. *)
Fixpoint ascii_rstrip (s : string) : string :=
  match s with
  | EmptyString => EmptyString
  | String c s' =>
      match ascii_rstrip s' with
      | EmptyString => if ascii_isspace c then EmptyString else String c EmptyString
      | r => String c r
      end
  end.

(** [s.strip()] for a text of ASCII characters. *)
Definition ascii_strip (s : string) : string := ascii_rstrip (ascii_lstrip s).

(** [s.isascii()]: every byte is below 128. *)
Fixpoint is_ascii (s : string) : bool :=
  match s with
  | EmptyString => true
  | String c s' => (N_of_ascii c <? 128)%N && is_ascii s'
  end.

(** Every byte is a visible ASCII character, 33 to 126: a letter, a
    digit or a punctuation mark, no blank and no control character. *)
Fixpoint is_graphic (s : string) : bool :=
  match s with
  | EmptyString => true
  | String c s' => ((33 <=? N_of_ascii c) && (N_of_ascii c <=? 126))%N && is_graphic s'
  end.

(** *** Operations that are the same for every text *)

(** [s.startswith(t)] *)
Fixpoint startswith (s t : string) {struct t} : bool :=
  match t, s with
  | EmptyString, _ => true
  | String _ _, EmptyString => false
  | String a t', String b s' => if ascii_dec a b then startswith s' t' else false
  end.

(** [t in s]: [t] occurs in [s] as a contiguous substring.  The empty
    string occurs in every string. *)
Fixpoint str_in (t s : string) : bool :=
  startswith s t ||
  match s with
  | EmptyString => false
  | String _ s' => str_in t s'
  end.

(** [sep.join(l)] *)
Fixpoint join (sep : string) (l : list string) : string :=
  match l with
  | [] => ""
  | [x] => x
  | x :: rest => x +:+ sep +:+ join sep rest
  end.

(** Truthiness of an [Optional[str]]: [None] and [""] are false. *)
Definition truthy (o : option string) : bool :=
  match o with
  | Some (String _ _) => true
  | _ => false
  end.

(** The line feed written at the end of a log line. *)
Definition LF : string := String "010"%char EmptyString.

(** *** What some theorems use of [lower] and [strip]

    Lower-casing twice is lower-casing once; so is lower-casing and
    stripping; on a text of ASCII characters the two methods are their
    ASCII versions; and stripping, which only takes white space off the
    two ends, leaves every occurrence of a word of visible ASCII
    characters where it is. *)
Class Lawful (N : Text) : Prop := {
  law_lower_idem : ∀ s, lower (lower s) = lower s;
  law_normal_idem : ∀ s, strip (lower (strip (lower s))) = strip (lower s);
  law_lower_ascii : ∀ s, is_ascii s = true → lower s = ascii_lower s;
  law_strip_ascii : ∀ s, is_ascii s = true → strip s = ascii_strip s;
  law_strip_keeps : ∀ t s, t ≠ "" → is_graphic t = true →
                           str_in t s = true → str_in t (strip s) = true
}.

(** The instance on which examples are run. *)
Global Instance ascii_text : Text := {| lower := ascii_lower; strip := ascii_strip |}.

End PyStr.

(** ** Insertion-ordered dictionaries

    A Python [dict] iterates in insertion order, and assigning to a key
    that is already present keeps the key's position.  Keys are strings. *)

Module PyDict.
Section dict.
Context {V : Type}.

Definition dict : Type := list (string * V).

(** [d.get(k)] *)
Fixpoint get (d : dict) (k : string) : option V :=
  match d with
  | [] => None
  | (k', v) :: d' => if decide (k' = k) then Some v else get d' k
  end.

(** [d[k] = v] *)
Fixpoint set (d : dict) (k : string) (v : V) : dict :=
  match d with
  | [] => [(k, v)]
  | (k', v') :: d' =>
      if decide (k' = k) then (k', v) :: d' else (k', v') :: set d' k v
  end.

(** [list(d.keys())] *)
Definition keys (d : dict) : list string := d.*1.

End dict.
Global Arguments dict : clear implicits.
End PyDict.

(** ** Results of calls that may raise *)

(** The exceptions that occur in the engine.  [TimeoutExpired] is the
    class caught by name in [_execute_script]; [KeyError] is what a failed
    subscript raises; [Exception] stands for any other subclass of
    Python's [Exception], with the text [str(e)] gives it. *)
Inductive exn : Type :=
  | TimeoutExpired (msg : string)
  | KeyError (key : string)
  | Exception (msg : string).

(** [str(e)]; a [KeyError] prints the [repr] of its key. *)
Definition str_exn (e : exn) : string :=
  match e with
  | TimeoutExpired msg => msg
  | KeyError key => "'" +:+ key +:+ "'"
  | Exception msg => msg
  end.

Inductive outcome (A : Type) : Type :=
  | Returned (a : A)
  | Raised (e : exn).
Global Arguments Returned {A} a.
Global Arguments Raised {A} e.

(** ** The whitelist and the matcher *)

(** A value of [command_whitelist]. *)
Record command_entry : Type := CommandEntry {
  script : option string;
  description : string;
  requires_confirmation : bool
}.

(** The dictionary [{"trigger": trigger, **config}] that [_match_command]
    returns. *)
Record command_config : Type := CommandConfig {
  trigger : string;
  cfg_script : option string;
  cfg_description : string;
  cfg_requires_confirmation : bool
}.

Definition with_trigger (t : string) (c : command_entry) : command_config :=
  CommandConfig t (script c) (description c) (requires_confirmation c).

(** [self.command_whitelist] as [__init__] builds it. *)
Definition default_whitelist : PyDict.dict command_entry :=
  [ ("start patching",
      CommandEntry (Some "scripts/patch_r2s.sh") "Initiate automated patching process" false);
    ("quarantine servers",
      CommandEntry (Some "scripts/isolate.sh") "Isolate affected systems" true);
    ("acknowledge incident",
      CommandEntry None "Log incident acknowledgment" false);
    ("emergency shutdown",
      CommandEntry (Some "scripts/emergency_shutdown.sh") "Emergency system shutdown" true);
    ("status report",
      CommandEntry (Some "scripts/status_check.sh") "Generate system status report" false) ].

(** The table [fuzzy_matches] of [_match_command]. *)
Definition fuzzy_matches : PyDict.dict string :=
  [ ("patch", "start patching");
    ("quarantine", "quarantine servers");
    ("isolate", "quarantine servers");
    ("acknowledge", "acknowledge incident");
    ("ack", "acknowledge incident");
    ("shutdown", "emergency shutdown");
    ("status", "status report");
    ("report", "status report") ].

(** The first loop of [_match_command]: the first trigger, in insertion
    order, that occurs in the text. *)
Fixpoint direct_match (whitelist : PyDict.dict command_entry) (command_text : string)
    : option command_config :=
  match whitelist with
  | [] => None
  | (trigger, config) :: rest =>
      if PyStr.str_in trigger command_text
      then Some (with_trigger trigger config)
      else direct_match rest command_text
  end.

(** The second loop: the first keyword of the table that occurs in the
    text selects its trigger, which is then looked up with
    [self.command_whitelist[trigger]]. *)
Fixpoint fuzzy_match (table : PyDict.dict string)
    (whitelist : PyDict.dict command_entry) (command_text : string)
    : outcome (option command_config) :=
  match table with
  | [] => Returned None
  | (keyword, trigger) :: rest =>
      if PyStr.str_in keyword command_text
      then match PyDict.get whitelist trigger with
           | Some config => Returned (Some (with_trigger trigger config))
           | None => Raised (KeyError trigger)
           end
      else fuzzy_match rest whitelist command_text
  end.

Definition _match_command (whitelist : PyDict.dict command_entry) (command_text : string)
    : outcome (option command_config) :=
  match direct_match whitelist command_text with
  | Some c => Returned (Some c)
  | None => fuzzy_match fuzzy_matches whitelist command_text
  end.

Definition _get_help_response (whitelist : PyDict.dict command_entry) : string :=
  let available_commands := PyDict.keys whitelist in
  let commands_text := PyStr.join "', '" available_commands in
  "Unknown command. Available commands: '" +:+ commands_text +:+ "'. Please try again.".

(** [self.command_whitelist[trigger.lower()] = {...}] of
    [add_custom_command], on the dictionary alone. *)
Definition add_to_whitelist {N : PyStr.Text} (whitelist : PyDict.dict command_entry)
    (trigger script_path description : string) : PyDict.dict command_entry :=
  PyDict.set whitelist (PyStr.lower trigger)
    (CommandEntry (Some script_path) description true).

(** ** The store and the outside world *)

Abbreviation loc := positive.

(** The dictionary that [_log_command] builds. *)
Record log_entry : Type := LogEntry {
  timestamp : string;
  command : string;
  cve_id : option string;
  source : string
}.

(** Objects with identity: lists of references, history entries, and
    environment blocks ([os.environ] and the copies made of it). *)
Inductive object : Type :=
  | PyList (items : list loc)
  | PyLogEntry (entry : log_entry)
  | PyEnviron (vars : gmap string string).

(** What [subprocess.run(..., capture_output=True, text=True)] returns. *)
Record completed_process : Type := CompletedProcess {
  returncode : Z;
  stdout : string;
  stderr : string
}.

(** How [with open(file, "a") as f: f.write(data)] can end.  [open]
    may raise, and then no file is made and nothing is written.  Once
    [open] has returned the file exists; [f.write] or the closing of the
    file may still raise, after a leading part of the data, possibly
    none of it, has reached the file. *)
Inductive append_answer : Type :=
  | Written
  | NotOpened (e : exn)
  | Broken (e : exn) (reached : nat).

(** One interaction with the outside, with the answer it got. *)
Inductive event : Type :=
  | EvNow (iso : string)
  | EvExists (path : string) (answer : bool)
  | EvAccess (path : string) (answer : outcome bool)
  | EvMakedirs (dir : string) (answer : outcome unit)
  | EvAppend (file data : string) (answer : append_answer)
  | EvRun (argv0 : string) (env : gmap string string) (timeout : nat)
          (answer : outcome completed_process).

Record world : Type := World {
  heap : gmap loc object;
  files : gmap string string;
  trace : list event
}.

(** The outside: each answer may depend on everything that happened
    before, so a script can exist at one call and be gone at the next. *)
Record oracle : Type := Oracle {
  clock_now : list event → string;
  fs_exists : list event → string → bool;
  fs_access_x : list event → string → outcome bool;
  fs_makedirs : list event → string → outcome unit;
  fs_append : list event → string → string → append_answer;
  proc_run : list event → string → gmap string string → nat → outcome completed_process
}.

(** ** A state-and-exception monad *)

Definition M (A : Type) : Type := world → outcome A * world.

Definition ret {A} (a : A) : M A := λ w, (Returned a, w).

Definition raise {A} (e : exn) : M A := λ w, (Raised e, w).

Definition bind {A B} (m : M A) (k : A → M B) : M B :=
  λ w, match m w with
       | (Returned a, w') => k a w'
       | (Raised e, w') => (Raised e, w')
       end.

(** [try: m  except Exception as e: handler e]; what [m] did to the
    world before it raised stays done. *)
Definition try_except {A} (m : M A) (handler : exn → M A) : M A :=
  λ w, match m w with
       | (Returned a, w') => (Returned a, w')
       | (Raised e, w') => handler e w'
       end.

Definition of_outcome {A} (o : outcome A) : M A := λ w, (o, w).

Notation "'let*' x ':=' m 'in' k" := (bind m (λ x, k))
  (at level 10, x name, m at level 100, k at level 200).

(** *** The store *)

(** [os.environ] is the one object that exists before the engine. *)
Definition os_environ : loc := 1%positive.

Definition alloc (o : object) : M loc :=
  λ w, let l := fresh (dom (heap w)) in
       (Returned l, World (<[l := o]> (heap w)) (files w) (trace w)).

Definition load (l : loc) : M object :=
  λ w, match heap w !! l with
       | Some o => (Returned o, w)
       | None => (Raised (Exception "dangling reference"), w)
       end.

Definition store (l : loc) (o : object) : M unit :=
  λ w, (Returned tt, World (<[l := o]> (heap w)) (files w) (trace w)).

Definition load_list (l : loc) : M (list loc) :=
  let* o := load l in
  match o with
  | PyList items => ret items
  | _ => raise (Exception "not a list")
  end.

Definition load_environ (l : loc) : M (gmap string string) :=
  let* o := load l in
  match o with
  | PyEnviron vars => ret vars
  | _ => raise (Exception "not a mapping")
  end.

(** [lst.append(x)] *)
Definition list_append (l : loc) (x : loc) : M unit :=
  let* items := load_list l in store l (PyList (items ++ [x])).

(** [lst.copy()]: a new list object holding the same references. *)
Definition list_copy (l : loc) : M loc :=
  let* items := load_list l in alloc (PyList items).

(** [os.environ.copy()] *)
Definition environ_copy (l : loc) : M loc :=
  let* vars := load_environ l in alloc (PyEnviron vars).

(** [env[k] = v] *)
Definition environ_setitem (l : loc) (k v : string) : M unit :=
  let* vars := load_environ l in store l (PyEnviron (<[k := v]> vars)).

(** *** The outside *)

Section outside.
Context (O : oracle).

Definition ask {R} (answer : list event → R) (ev : R → event) : M R :=
  λ w, let r := answer (trace w) in
       (Returned r, World (heap w) (files w) (trace w ++ [ev r])).

(** [datetime.now().isoformat()] *)
Definition datetime_now_isoformat : M string := ask (clock_now O) EvNow.

(** [os.path.exists(path)] *)
Definition os_path_exists (path : string) : M bool :=
  ask (λ tr, fs_exists O tr path) (EvExists path).

(** [os.access(path, os.X_OK)] *)
Definition os_access_X_OK (path : string) : M bool :=
  let* r := ask (λ tr, fs_access_x O tr path) (EvAccess path) in of_outcome r.

(** [os.makedirs(dir, exist_ok=True)] *)
Definition os_makedirs (dir : string) : M unit :=
  let* r := ask (λ tr, fs_makedirs O tr dir) (EvMakedirs dir) in of_outcome r.

(** The file gets [data] at its end, and is made if it was missing. *)
Definition file_extend (file data : string) : M unit :=
  λ w, (Returned tt,
        World (heap w) (<[file := default "" (files w !! file) +:+ data]> (files w))
              (trace w)).

(** [with open(file, "a") as f: f.write(data)]: when it succeeds the
    data is at the end of the file, made if it was missing; when [open]
    raises the files are as they were; when the writing or the closing
    raises the file exists and holds, after what it held, the part of
    the data that got through. *)
Definition append_to_file (file data : string) : M unit :=
  let* r := ask (λ tr, fs_append O tr file data) (EvAppend file data) in
  match r with
  | Written => file_extend file data
  | NotOpened e => raise e
  | Broken e reached =>
      let* _ := file_extend file (substring 0 reached data) in
      raise e
  end.

(** [subprocess.run([argv0], capture_output=True, text=True,
    timeout=timeout, env=env)]: the child gets the contents the
    environment block has at the time of the call. *)
Definition subprocess_run (argv0 : string) (env : loc) (timeout : nat)
    : M completed_process :=
  let* vars := load_environ env in
  let* r := ask (λ tr, proc_run O tr argv0 vars timeout) (EvRun argv0 vars timeout) in
  of_outcome r.
End outside.

(** [os.path.join(a, p)] of [posixpath], for two components. *)
Definition os_path_join (a p : string) : string :=
  if PyStr.startswith p "/" then p
  else if bool_decide (a = "") || PyStr.startswith (String.rev a) "/" then a +:+ p
  else a +:+ "/" +:+ p.

(** ** The engine *)

(** A [CommandEngine] object.  The history is a reference to a list in
    the store; the whitelist is carried by value, since no reference to
    it ever leaves the engine. *)
Record engine : Type := Engine {
  scripts_dir : string;
  command_history : loc;
  command_whitelist : PyDict.dict command_entry
}.

Section engine.
Context {N : PyStr.Text} (O : oracle).

(** [CommandEngine(scripts_dir)] *)
Definition __init__ (scripts_dir : string) : M engine :=
  let* history := alloc (PyList []) in
  let* _ := os_makedirs O scripts_dir in
  ret (Engine scripts_dir history default_whitelist).

Definition _log_command (self : engine) (command_text : string)
    (cve_id : option string) : M unit :=
  let* now := datetime_now_isoformat O in
  let* log_entry := alloc (PyLogEntry (LogEntry now command_text cve_id "voice_command")) in
  list_append (command_history self) log_entry.

Definition _handle_acknowledgment (cve_id : option string) : M string :=
  let* timestamp := datetime_now_isoformat O in
  let ack_message := "Incident acknowledged at " +:+ timestamp in
  let ack_message :=
    if PyStr.truthy cve_id
    then ack_message +:+ " for " +:+ default "" cve_id
    else ack_message in
  let ack_file := os_path_join "logs" "acknowledgments.log" in
  let* _ := os_makedirs O "logs" in
  let* _ := try_except
              (append_to_file O ack_file (timestamp +:+ ": " +:+ ack_message +:+ PyStr.LF))
              (λ e, ret tt) in
  ret "Incident acknowledged and logged.".

Definition _execute_script (script_path command_name : string)
    (cve_id : option string) : M string :=
  let* found := os_path_exists O script_path in
  if negb found
  then ret ("Script " +:+ script_path +:+ " not found. Please check configuration.")
  else
  let* executable := os_access_X_OK O script_path in
  if negb executable
  then ret ("Script " +:+ script_path +:+ " is not executable.")
  else
  try_except
    (let* env := environ_copy os_environ in
     let* _ := if PyStr.truthy cve_id
               then environ_setitem env "CVE_ID" (default "" cve_id)
               else ret tt in
     let* now := datetime_now_isoformat O in
     let* _ := environ_setitem env "TIMESTAMP" now in
     let* result := subprocess_run O script_path env 300 in
     if (returncode result =? 0)%Z
     then ret (command_name +:+ " completed successfully.")
     else ret (command_name +:+ " failed. Check logs for details."))
    (λ e, match e with
          | TimeoutExpired _ => ret (command_name +:+ " timed out after 5 minutes.")
          | _ => ret ("Error executing " +:+ command_name +:+ ": " +:+ str_exn e)
          end).

Definition _execute_command (command_config : command_config)
    (original_text : string) (cve_id : option string) : M string :=
  let trigger := trigger command_config in
  let script_path := cfg_script command_config in
  try_except
    (if bool_decide (trigger = "acknowledge incident")
     then _handle_acknowledgment cve_id
     else if PyStr.truthy script_path
     then _execute_script (default "" script_path) trigger cve_id
     else ret ("Command '" +:+ trigger +:+ "' recognized but no action configured."))
    (λ e, ret ("Failed to execute " +:+ trigger +:+ ". Error: " +:+ str_exn e)).

Definition process_voice_command (self : engine) (command_text : string)
    (cve_id : option string) : M string :=
  let command_text := PyStr.strip (PyStr.lower command_text) in
  let* _ := _log_command self command_text cve_id in
  let* matched_command := of_outcome (_match_command (command_whitelist self) command_text) in
  match matched_command with
  | None => ret (_get_help_response (command_whitelist self))
  | Some matched_command => _execute_command matched_command command_text cve_id
  end.

(** Returns the reference to a new list. *)
Definition get_command_history (self : engine) : M loc :=
  list_copy (command_history self).
End engine.

(** [add_custom_command] changes the whitelist of the engine and nothing
    else. *)
Definition add_custom_command {N : PyStr.Text} (self : engine)
    (trigger script_path description : string)
    : engine :=
  Engine (scripts_dir self) (command_history self)
         (add_to_whitelist (command_whitelist self) trigger script_path description).

(** ** Invariants of an engine *)

(** Every trigger the fuzzy table points to is a key of the whitelist;
    [self.command_whitelist[trigger]] cannot fail then. *)
Definition whitelist_ok (whitelist : PyDict.dict command_entry) : Prop :=
  Forall (λ kt, kt.2 ∈ PyDict.keys whitelist) fuzzy_matches.

(** The store part of an engine's invariant: the history is a list and
    [os.environ] is an environment block. *)
Definition store_ok (self : engine) (w : world) : Prop :=
  (∃ items, heap w !! command_history self = Some (PyList items)) ∧
  (∃ vars, heap w !! os_environ = Some (PyEnviron vars)).

(** The invariant of an engine: [__init__] establishes it and every call
    keeps it. *)
Definition engine_ok (self : engine) (w : world) : Prop :=
  store_ok self w ∧ whitelist_ok (command_whitelist self).

(** The list of references the history holds, if it is a list. *)
Definition history_items (self : engine) (w : world) : option (list loc) :=
  match heap w !! command_history self with
  | Some (PyList items) => Some items
  | _ => None
  end.

(** None of the keys is a substring of the text. *)
Definition occurs_nowhere (command_text : string) (keys : list string) : Prop :=
  Forall (λ k, PyStr.str_in k command_text = false) keys.

(** ** What one execution does, case by case *)

(** The trigger that [_execute_command] compares with. *)
Definition builtin_trigger : string := "acknowledge incident".

(** The environment block given to a child: the parent's variables, then
    [CVE_ID] when [cve_id] is a non-empty string, then [TIMESTAMP]. *)
Definition child_environment (vars : gmap string string) (cve_id : option string)
    (now : string) : gmap string string :=
  <["TIMESTAMP" := now]>
    (if PyStr.truthy cve_id then <["CVE_ID" := default "" cve_id]> vars else vars).

(** The message [_execute_script] derives from what [subprocess.run] did. *)
Definition script_message (command_name : string) (answer : outcome completed_process)
    : string :=
  match answer with
  | Returned result =>
      if (returncode result =? 0)%Z
      then command_name +:+ " completed successfully."
      else command_name +:+ " failed. Check logs for details."
  | Raised (TimeoutExpired _) => command_name +:+ " timed out after 5 minutes."
  | Raised e => "Error executing " +:+ command_name +:+ ": " +:+ str_exn e
  end.

(** The line [_handle_acknowledgment] writes. *)
Definition ack_line (timestamp : string) (cve_id : option string) : string :=
  timestamp +:+ ": " +:+
  ("Incident acknowledged at " +:+ timestamp +:+
   (if PyStr.truthy cve_id then " for " +:+ default "" cve_id else "")) +:+ PyStr.LF.

Definition ack_file : string := "logs/acknowledgments.log".

Definition ack_reply : string := "Incident acknowledged and logged.".

(** What the [except Exception] clause of [_execute_command] makes of
    the outcome of the handler it ran. *)
Definition recovered (trigger : string) (r : outcome string) : string :=
  match r with
  | Returned reply => reply
  | Raised e => "Failed to execute " +:+ trigger +:+ ". Error: " +:+ str_exn e
  end.

(** The ways a call of [_execute_script] can go, with the events it adds
    to the trace and the store it leaves. *)
Inductive script_run (O : oracle) (script_path command_name : string)
    (cve_id : option string) (w : world) : outcome string → world → Prop :=
  | script_missing :
      fs_exists O (trace w) script_path = false →
      script_run O script_path command_name cve_id w
        (Returned ("Script " +:+ script_path +:+ " not found. Please check configuration."))
        (World (heap w) (files w) (trace w ++ [EvExists script_path false]))
  | script_not_executable :
      fs_exists O (trace w) script_path = true →
      fs_access_x O (trace w ++ [EvExists script_path true]) script_path = Returned false →
      script_run O script_path command_name cve_id w
        (Returned ("Script " +:+ script_path +:+ " is not executable."))
        (World (heap w) (files w)
               (trace w ++ [EvExists script_path true; EvAccess script_path (Returned false)]))
  | script_access_raised e :
      fs_exists O (trace w) script_path = true →
      fs_access_x O (trace w ++ [EvExists script_path true]) script_path = Raised e →
      script_run O script_path command_name cve_id w
        (Raised e)
        (World (heap w) (files w)
               (trace w ++ [EvExists script_path true; EvAccess script_path (Raised e)]))
  | script_no_environ msg :
      fs_exists O (trace w) script_path = true →
      fs_access_x O (trace w ++ [EvExists script_path true]) script_path = Returned true →
      (∀ vars, heap w !! os_environ ≠ Some (PyEnviron vars)) →
      script_run O script_path command_name cve_id w
        (Returned ("Error executing " +:+ command_name +:+ ": " +:+ msg))
        (World (heap w) (files w)
               (trace w ++ [EvExists script_path true; EvAccess script_path (Returned true)]))
  | script_spawned vars now answer :
      fs_exists O (trace w) script_path = true →
      fs_access_x O (trace w ++ [EvExists script_path true]) script_path = Returned true →
      heap w !! os_environ = Some (PyEnviron vars) →
      now = clock_now O (trace w ++ [EvExists script_path true;
                                     EvAccess script_path (Returned true)]) →
      answer = proc_run O (trace w ++ [EvExists script_path true;
                                       EvAccess script_path (Returned true); EvNow now])
                 script_path (child_environment vars cve_id now) 300 →
      script_run O script_path command_name cve_id w
        (Returned (script_message command_name answer))
        (World (<[fresh (dom (heap w)) := PyEnviron (child_environment vars cve_id now)]> (heap w))
               (files w)
               (trace w ++ [EvExists script_path true; EvAccess script_path (Returned true);
                            EvNow now;
                            EvRun script_path (child_environment vars cve_id now) 300 answer])).

(** The ways a call of [_handle_acknowledgment] can go. *)
Inductive ack_run (O : oracle) (cve_id : option string) (w : world)
    : outcome string → world → Prop :=
  | ack_no_directory now e :
      now = clock_now O (trace w) →
      fs_makedirs O (trace w ++ [EvNow now]) "logs" = Raised e →
      ack_run O cve_id w (Raised e)
        (World (heap w) (files w) (trace w ++ [EvNow now; EvMakedirs "logs" (Raised e)]))
  | ack_not_opened now e :
      now = clock_now O (trace w) →
      fs_makedirs O (trace w ++ [EvNow now]) "logs" = Returned tt →
      fs_append O (trace w ++ [EvNow now; EvMakedirs "logs" (Returned tt)])
                ack_file (ack_line now cve_id) = NotOpened e →
      ack_run O cve_id w (Returned ack_reply)
        (World (heap w) (files w)
               (trace w ++ [EvNow now; EvMakedirs "logs" (Returned tt);
                            EvAppend ack_file (ack_line now cve_id) (NotOpened e)]))
  | ack_broken now e reached :
      now = clock_now O (trace w) →
      fs_makedirs O (trace w ++ [EvNow now]) "logs" = Returned tt →
      fs_append O (trace w ++ [EvNow now; EvMakedirs "logs" (Returned tt)])
                ack_file (ack_line now cve_id) = Broken e reached →
      ack_run O cve_id w (Returned ack_reply)
        (World (heap w)
               (<[ack_file := default "" (files w !! ack_file)
                              +:+ substring 0 reached (ack_line now cve_id)]> (files w))
               (trace w ++ [EvNow now; EvMakedirs "logs" (Returned tt);
                            EvAppend ack_file (ack_line now cve_id) (Broken e reached)]))
  | ack_written now :
      now = clock_now O (trace w) →
      fs_makedirs O (trace w ++ [EvNow now]) "logs" = Returned tt →
      fs_append O (trace w ++ [EvNow now; EvMakedirs "logs" (Returned tt)])
                ack_file (ack_line now cve_id) = Written →
      ack_run O cve_id w (Returned ack_reply)
        (World (heap w)
               (<[ack_file := default "" (files w !! ack_file) +:+ ack_line now cve_id]> (files w))
               (trace w ++ [EvNow now; EvMakedirs "logs" (Returned tt);
                            EvAppend ack_file (ack_line now cve_id) Written])).

(** ** Sequences of calls *)

(** The calls a user of the engine can make. *)
Inductive call : Type :=
  | CallProcess (command_text : string) (cve_id : option string)
  | CallAddCustom (trigger script_path description : string)
  | CallGetHistory.

Definition perform {N : PyStr.Text} (O : oracle) (st : engine * world)
    (c : call) : engine * world :=
  match c with
  | CallProcess command_text cve_id =>
      (st.1, (process_voice_command O st.1 command_text cve_id st.2).2)
  | CallAddCustom trigger script_path description =>
      (add_custom_command st.1 trigger script_path description, st.2)
  | CallGetHistory => (st.1, (get_command_history st.1 st.2).2)
  end.

Definition perform_all {N : PyStr.Text} (O : oracle) (st : engine * world) (calls : list call)
    : engine * world :=
  foldl (perform O) st calls.

Definition is_process (c : call) : bool :=
  match c with CallProcess _ _ => true | _ => false end.

(** ** Callers that change a list they were given *)

(** What a caller can do to a list it holds: any change in place of the
    references in it. *)
Definition list_mutate (l : loc) (change : list loc → list loc) : M unit :=
  let* items := load_list l in store l (PyList (change items)).

Fixpoint list_mutate_all (l : loc) (changes : list (list loc → list loc)) : M unit :=
  match changes with
  | [] => ret tt
  | change :: rest => let* _ := list_mutate l change in list_mutate_all l rest
  end.

(** [lst.append(x)], [lst.pop()] on a list that is not empty,
    [lst.reverse()] and [lst.clear()]. *)
Definition py_append (x : loc) : list loc → list loc := λ items, items ++ [x].
Definition py_pop : list loc → list loc := λ items, take (length items - 1) items.
Definition py_reverse : list loc → list loc := reverse.
Definition py_clear : list loc → list loc := λ _, [].

(** ** Sample worlds, used to run the engine on concrete inputs *)

(** The world before any engine exists: [os.environ] holds [vars]. *)
Definition initial_world (vars : gmap string string) : world :=
  World {[ os_environ := PyEnviron vars ]} ∅ [].

(** The outcome of running [m], the world it leaves put aside. *)
Definition run_in {A} (m : M A) (w : world) : outcome A := (m w).1.

(** An outside in which the clock always shows the same instant, every
    script is present and executable, directories and files can be
    written, and every script exits with [code], writing [err] to its
    standard error. *)
Definition calm (code : Z) (err : string) : oracle :=
  Oracle (λ _, "2025-12-06T10:15:30.123456")
         (λ _ _, true)
         (λ _ _, Returned true)
         (λ _ _, Returned tt)
         (λ _ _ _, Written)
         (λ _ _ _ _, Returned (CompletedProcess code "" err)).

(** An outside with no scripts at all. *)
Definition no_scripts : oracle :=
  Oracle (λ _, "2025-12-06T10:15:30.123456")
         (λ _ _, false)
         (λ _ _, Returned false)
         (λ _ _, Returned tt)
         (λ _ _ _, Written)
         (λ _ _ _ _, Raised (Exception "[Errno 2] No such file or directory")).

(** An outside in which the acknowledgment log cannot be opened. *)
Definition read_only_logs : oracle :=
  Oracle (λ _, "2025-12-06T10:15:30.123456")
         (λ _ _, true)
         (λ _ _, Returned true)
         (λ _ _, Returned tt)
         (λ _ _ _, NotOpened (Exception "[Errno 13] Permission denied: 'logs/acknowledgments.log'"))
         (λ _ _ _ _, Returned (CompletedProcess 0 "" "")).

(** An outside in which the disk fills up while the acknowledgment log
    is written: the log is opened and the first 27 characters get to it. *)
Definition full_disk : oracle :=
  Oracle (λ _, "2025-12-06T10:15:30.123456")
         (λ _ _, true)
         (λ _ _, Returned true)
         (λ _ _, Returned tt)
         (λ _ _ _, Broken (Exception "[Errno 28] No space left on device") 27)
         (λ _ _ _ _, Returned (CompletedProcess 0 "" "")).

(** The engine and the world that [CommandEngine()] leaves when the
    parent's environment is empty and the directory could be made. *)
Definition sample_engine : engine := Engine "scripts" 2%positive default_whitelist.

Definition sample_world : world :=
  World (<[2%positive := PyList []]> {[ os_environ := PyEnviron ∅ ]}) ∅
        [EvMakedirs "scripts" (Returned tt)].

(** ** Reading the history back *)

(** The entry a reference of the history leads to. *)
Definition load_entry (h : gmap loc object) (l : loc) : option log_entry :=
  match h !! l with
  | Some (PyLogEntry entry) => Some entry
  | _ => None
  end.

Fixpoint load_entries (h : gmap loc object) (items : list loc) : option (list log_entry) :=
  match items with
  | [] => Some []
  | l :: rest =>
      match load_entry h l, load_entries h rest with
      | Some entry, Some entries => Some (entry :: entries)
      | _, _ => None
      end
  end.

(** What a reader of [engine.command_history] sees: the entries in the
    order of the list. *)
Definition history_entries (self : engine) (w : world) : option (list log_entry) :=
  match history_items self w with
  | Some items => load_entries (heap w) items
  | None => None
  end.

(** The text and correlation id that each [process_voice_command] of a
    sequence of calls records. *)
Fixpoint requests {N : PyStr.Text} (calls : list call) : list (string * option string) :=
  match calls with
  | [] => []
  | CallProcess command_text cve_id :: rest =>
      (PyStr.strip (PyStr.lower command_text), cve_id) :: requests rest
  | _ :: rest => requests rest
  end.

(** ** Kinds of events *)

Definition is_run (ev : event) : bool :=
  match ev with EvRun _ _ _ _ => true | _ => false end.

Definition is_append (ev : event) : bool :=
  match ev with EvAppend _ _ _ => true | _ => false end.

(** What the execution of one matched command may add to the trace: at
    most one process, started only for the script of the entry after
    both checks on it, and at most one append, only by the built-in
    handler and only to the acknowledgment log. *)
Definition command_effects (c : command_config) (cve_id : option string)
    (evs : list event) : Prop :=
  length (filter is_run evs) ≤ 1
  ∧ length (filter is_append evs) ≤ 1
  ∧ (∀ argv0 env timeout answer,
       EvRun argv0 env timeout answer ∈ evs →
       cfg_script c = Some argv0 ∧ trigger c ≠ builtin_trigger ∧ timeout = 300
       ∧ EvExists argv0 true ∈ evs ∧ EvAccess argv0 (Returned true) ∈ evs)
  ∧ (∀ file data answer,
       EvAppend file data answer ∈ evs →
       trigger c = builtin_trigger ∧ file = ack_file
       ∧ ∃ now, EvNow now ∈ evs ∧ data = ack_line now cve_id).

(** ** Shape of a whitelist *)

(** The keys are distinct, each is its own lower-case form, and the five
    triggers of [__init__] come first, in their order. *)
Definition whitelist_shape {N : PyStr.Text} (whitelist : PyDict.dict command_entry) : Prop :=
  NoDup (PyDict.keys whitelist)
  ∧ Forall (λ k, PyStr.lower k = k) (PyDict.keys whitelist)
  ∧ PyDict.keys default_whitelist `prefix_of` PyDict.keys whitelist.

(** ** Callers of the engine *)

(** [command_callback = lambda cmd:
    self.command_engine.process_voice_command(cmd, cve_id)] of
    [VoiceAlertSystem._process_vulnerability]. *)
Definition command_callback {N : PyStr.Text} (O : oracle) (command_engine : engine)
    (cve_id : string)
    : string → M string :=
  λ cmd, process_voice_command O command_engine cmd (Some cve_id).

(** [demo_command_handler] of demo.py: a new engine for every command. *)
Definition demo_command_handler {N : PyStr.Text} (O : oracle) (command : string) : M string :=
  let* engine := __init__ O "scripts" in
  process_voice_command O engine command (Some "CVE-2025-55182").

(** A value of [VoiceCaller.active_calls].  Times are [time.time()]
    readings; nothing modelled here computes with them, so their type is
    left open.  [end_time] is the key that [end_call] adds. *)
Record call_info (float : Type) : Type := CallInfo {
  phone_number : string;
  start_time : float;
  callback : option (string → M string);
  status : string;
  end_time : option float
}.
Global Arguments CallInfo {float} _ _ _ _ _.
Global Arguments phone_number {float} _.
Global Arguments start_time {float} _.
Global Arguments callback {float} _.
Global Arguments status {float} _.
Global Arguments end_time {float} _.

(** A [VoiceCaller], without its API client. *)
Record voice_caller (float : Type) : Type := VoiceCaller {
  api_key : string;
  voice_id : option string;
  active_calls : gmap string (call_info float)
}.
Global Arguments VoiceCaller {float} _ _ _.
Global Arguments api_key {float} _.
Global Arguments voice_id {float} _.
Global Arguments active_calls {float} _.

(** [VoiceCaller.handle_voice_response] *)
Definition handle_voice_response {N : PyStr.Text} {float : Type} (self : voice_caller float)
    (call_id transcribed_text : string) : M string :=
  match active_calls self !! call_id with
  | None => ret "Sorry, I don't recognize this call session."
  | Some call_info =>
      match callback call_info with
      | Some callback =>
          try_except
            (callback (PyStr.strip (PyStr.lower transcribed_text)))
            (λ e, ret "Sorry, there was an error processing your command.")
      | None => ret "Command received but no handler configured."
      end
  end.

(** [str(n)] for an [int] that is not negative. *)
Definition str_int (n : nat) : string := NilEmpty.string_of_uint (Nat.to_uint n).

(** A [MockVoiceCaller]. *)
Record mock_voice_caller : Type := MockVoiceCaller {
  call_counter : nat
}.

(** [MockVoiceCaller.place_call]: the caller with its counter advanced,
    which it is whether or not the call then returns, and the rest of the
    call.  What the callback raises is not caught. *)
Definition place_call (self : mock_voice_caller) (phone_number script : string)
    (command_callback : option (string → M string)) : mock_voice_caller * M string :=
  let self := MockVoiceCaller (call_counter self + 1) in
  let call_id := "mock_call_" +:+ str_int (call_counter self) in
  (self,
   let* _ := match command_callback with
             | Some command_callback =>
                 let* response := command_callback "start patching" in ret tt
             | None => ret tt
             end in
   ret call_id).

(** A turn of a simulated conversation: a dictionary whose values, as
    far as they are read here, are strings or [None] (JSON [null]). *)
Definition turn : Type := PyDict.dict (option string).

(** [turn.get(key, "")] *)
Definition turn_get (t : turn) (key : string) : option string :=
  match PyDict.get t key with
  | Some value => value
  | None => Some ""
  end.

(** The list [command_keywords] of [_process_agent_conversation]. *)
Definition command_keywords : list string :=
  ["patch"; "quarantine"; "isolate"; "acknowledge"; "shutdown"; "status"].

(** The inner loop of [_process_agent_conversation]: at the first keyword
    that occurs in the lower-cased content the callback is run on that
    content, its exceptions are swallowed, and the loop is left. *)
Fixpoint run_if_keyword {N : PyStr.Text} (keywords : list string) (content : string)
    (command_callback : string → M string) : M unit :=
  match keywords with
  | [] => ret tt
  | keyword :: rest =>
      if PyStr.str_in keyword (PyStr.lower content)
      then try_except
             (let* response := command_callback (PyStr.lower content) in ret tt)
             (λ e, ret tt)
      else run_if_keyword rest content command_callback
  end.

(** [VoiceInterface._process_agent_conversation] *)
Fixpoint _process_agent_conversation {N : PyStr.Text} (conversation_turns : list turn)
    (command_callback : string → M string) : M unit :=
  match conversation_turns with
  | [] => ret tt
  | t :: rest =>
      let role := turn_get t "role" in
      let content := turn_get t "content" in
      let* _ := if bool_decide (role = Some "user") && PyStr.truthy content
                then run_if_keyword command_keywords (default "" content) command_callback
                else ret tt in
      _process_agent_conversation rest command_callback
  end.

(** The turns that make [_process_agent_conversation] run the callback,
    and the text it runs it on. *)
Definition is_command_turn {N : PyStr.Text} (t : turn) : bool :=
  bool_decide (turn_get t "role" = Some "user")
  && PyStr.truthy (turn_get t "content")
  && existsb (λ keyword, PyStr.str_in keyword (PyStr.lower (default "" (turn_get t "content"))))
             command_keywords.

Definition command_of_turn {N : PyStr.Text} (t : turn) : string :=
  PyStr.lower (default "" (turn_get t "content")).

(** * Properties *)

(** ** Facts about the string operations *)

Module PyStrFacts.
Import PyStr.

Lemma app_nil_l (s : string) : "" +:+ s = s.
Proof. reflexivity. Qed.

Lemma app_cons (c : ascii) (s t : string) : String c s +:+ t = String c (s +:+ t).
Proof. reflexivity. Qed.

Ltac str_norm := rewrite ?app_cons, ?app_nil_l.

Lemma app_nil_r (s : string) : s +:+ "" = s.
Proof. induction s as [|c s IH]; str_norm; [done | by rewrite IH]. Qed.

Lemma app_assoc (a b c : string) : (a +:+ b) +:+ c = a +:+ b +:+ c.
Proof. induction a as [|x a IH]; str_norm; [done | by rewrite IH]. Qed.

Lemma startswith_spec (s t : string) :
  startswith s t = true ↔ ∃ b, s = t +:+ b.
Proof.
  revert s. induction t as [|a t IH]; intros s; simpl.
  - split; [intros _; exists s; reflexivity | done].
  - destruct s as [|b s]; simpl.
    + split; [done | intros [? Hr]; revert Hr; str_norm; discriminate].
    + destruct (ascii_dec a b) as [->|Hne].
      * rewrite IH. split; intros [r Hr]; exists r; str_norm.
        -- by rewrite Hr.
        -- revert Hr. str_norm. by intros [= ->].
      * split; [done | intros [r Hr]; revert Hr; str_norm; intros [= ? ?]; congruence].
Qed.

(** [str_in] decides the occurrence of [t] somewhere inside [s]. *)
Lemma str_in_spec (t s : string) :
  str_in t s = true ↔ ∃ a b, s = a +:+ t +:+ b.
Proof.
  induction s as [|c s IH]; simpl.
  - rewrite orb_false_r, startswith_spec. split.
    + intros [b Hb]. exists "", b. by str_norm.
    + intros [a [b Hab]]. destruct a; revert Hab; str_norm; [by exists b | discriminate].
  - rewrite orb_true_iff, startswith_spec, IH. split.
    + intros [[b Hb] | [a [b Hab]]].
      * exists "", b. by str_norm.
      * exists (String c a), b. str_norm. by rewrite Hab.
    + intros [a [b Hab]]. destruct a as [|x a]; revert Hab; str_norm; intros Hab.
      * left. by exists b.
      * right. injection Hab as _ Hab. by exists a, b.
Qed.

Lemma str_in_app_r (t a s : string) : str_in t s = true → str_in t (a +:+ s) = true.
Proof.
  rewrite !str_in_spec. intros [x [y ->]]. exists (a +:+ x), y.
  by rewrite app_assoc.
Qed.

Lemma str_in_app_l (t s b : string) : str_in t s = true → str_in t (s +:+ b) = true.
Proof.
  rewrite !str_in_spec. intros [x [y ->]]. exists x, (y +:+ b).
  by rewrite !app_assoc.
Qed.

Lemma str_in_refl (t : string) : str_in t t = true.
Proof. apply str_in_spec. exists "", "". str_norm. by rewrite app_nil_r. Qed.

Lemma join_cons2 (sep x y : string) (l : list string) :
  join sep (x :: y :: l) = x +:+ sep +:+ join sep (y :: l).
Proof. reflexivity. Qed.

(** Every element of a joined list, wrapped in the quotes that surround
    the list, can be read back from the text. *)
Lemma join_quoted (l : list string) (x : string) :
  x ∈ l → str_in ("'" +:+ x +:+ "'") ("'" +:+ join "', '" l +:+ "'") = true.
Proof.
  induction l as [|y l IH]; [by intros ?%elem_of_nil |].
  intros [-> | Hin]%elem_of_cons.
  - destruct l as [|z l].
    + apply str_in_refl.
    + rewrite join_cons2. apply str_in_spec.
      exists "", (", '" +:+ join "', '" (z :: l) +:+ "'").
      str_norm. f_equal. rewrite !app_assoc. by str_norm.
  - destruct l as [|z l]; [by apply elem_of_nil in Hin |].
    rewrite join_cons2. specialize (IH Hin).
    replace ("'" +:+ (y +:+ "', '" +:+ join "', '" (z :: l)) +:+ "'")
      with (("'" +:+ y +:+ "', ") +:+ ("'" +:+ join "', '" (z :: l) +:+ "'")).
    + by apply str_in_app_r.
    + str_norm. f_equal. rewrite !app_assoc. by str_norm.
Qed.

End PyStrFacts.

(** ** The ASCII versions of [lower] and [strip] *)

Module PyStrNorm.
Import PyStr.

Lemma lower_char_idem (c : ascii) : ascii_lower_char (ascii_lower_char c) = ascii_lower_char c.
Proof. destruct c as [[] [] [] [] [] [] [] []]; reflexivity. Qed.

Lemma isspace_lower_char (c : ascii) : ascii_isspace (ascii_lower_char c) = ascii_isspace c.
Proof. destruct c as [[] [] [] [] [] [] [] []]; reflexivity. Qed.

Lemma rstrip_cons (c : ascii) (s : string) :
  ascii_rstrip (String c s)
  = match ascii_rstrip s with
    | EmptyString => if ascii_isspace c then EmptyString else String c EmptyString
    | r => String c r
    end.
Proof. reflexivity. Qed.

Lemma lower_idem (s : string) : ascii_lower (ascii_lower s) = ascii_lower s.
Proof. induction s as [| c s IH]; simpl; [done | by rewrite lower_char_idem, IH]. Qed.

Lemma lower_lstrip (s : string) : ascii_lower (ascii_lstrip s) = ascii_lstrip (ascii_lower s).
Proof.
  induction s as [| c s IH]; simpl; [done |].
  rewrite isspace_lower_char. by destruct (ascii_isspace c).
Qed.


Lemma lower_rstrip (s : string) : ascii_lower (ascii_rstrip s) = ascii_rstrip (ascii_lower s).
Proof.
  induction s as [| c s IH]; [done |].
  simpl ascii_lower at 2. rewrite !rstrip_cons, <- IH, isspace_lower_char.
  destruct (ascii_rstrip s) as [| d r]; simpl; [by destruct (ascii_isspace c) | done].
Qed.

Lemma lower_strip (s : string) : ascii_lower (ascii_strip s) = ascii_strip (ascii_lower s).
Proof. unfold ascii_strip. by rewrite lower_rstrip, lower_lstrip. Qed.

Lemma rstrip_idem (s : string) : ascii_rstrip (ascii_rstrip s) = ascii_rstrip s.
Proof.
  induction s as [| c s IH]; [done |].
  rewrite rstrip_cons. destruct (ascii_rstrip s) as [| d r] eqn:Hr.
  - destruct (ascii_isspace c) eqn:Hc; [done |]. by rewrite rstrip_cons, Hc.
  - by rewrite rstrip_cons, IH.
Qed.

(** A text with no blank in front keeps its front when stripped on the
    right. *)
Lemma lstrip_rstrip_fixed (s : string) : ascii_lstrip s = s → ascii_lstrip (ascii_rstrip s) = ascii_rstrip s.
Proof.
  destruct s as [| c s]; [done |]. simpl ascii_lstrip at 1.
  destruct (ascii_isspace c) eqn:Hc.
  - intros Heq. exfalso.
    assert (Hlen : ∀ t, String.length (ascii_lstrip t) ≤ String.length t).
    { induction t as [| x t IHt]; simpl; [done |]. destruct (ascii_isspace x); simpl; lia. }
    specialize (Hlen s). rewrite Heq in Hlen. simpl in Hlen. lia.
  - intros _. rewrite rstrip_cons. destruct (ascii_rstrip s); rewrite ?Hc; simpl; by rewrite Hc.
Qed.

Lemma lstrip_idem (s : string) : ascii_lstrip (ascii_lstrip s) = ascii_lstrip s.
Proof.
  induction s as [| c s IH]; simpl; [done |].
  destruct (ascii_isspace c) eqn:Hc; [done |]. simpl. by rewrite Hc.
Qed.

Lemma strip_idem (s : string) : ascii_strip (ascii_strip s) = ascii_strip s.
Proof.
  unfold ascii_strip. rewrite (lstrip_rstrip_fixed (ascii_lstrip s)) by apply lstrip_idem.
  apply rstrip_idem.
Qed.

Lemma normal_form_idem (s : string) :
  ascii_strip (ascii_lower (ascii_strip (ascii_lower s))) = ascii_strip (ascii_lower s).
Proof. by rewrite lower_strip, lower_idem, strip_idem. Qed.

Lemma str_in_empty_text (t : string) : t ≠ "" → str_in t "" = false.
Proof. destruct t; [done | reflexivity]. Qed.

End PyStrNorm.

Module PyStrOccur.
Import PyStr.

Lemma lower_app (a b : string) : ascii_lower (a +:+ b) = ascii_lower a +:+ ascii_lower b.
Proof.
  induction a as [| c a IH]; [done |].
  rewrite PyStrFacts.app_cons. simpl. by rewrite IH, PyStrFacts.app_cons.
Qed.

Lemma lstrip_keeps (t : string) :
  t ≠ "" → ascii_lstrip t = t → ∀ a b, ∃ a', ascii_lstrip (a +:+ t +:+ b) = a' +:+ t +:+ b.
Proof.
  intros Ht Hfix a b. induction a as [| c a IH].
  - exists "". rewrite !PyStrFacts.app_nil_l.
    destruct t as [| x t]; [done |]. rewrite PyStrFacts.app_cons.
    simpl in Hfix |- *. destruct (ascii_isspace x) eqn:Hx; [| done].
    exfalso.
    assert (Hlen : ∀ u, String.length (ascii_lstrip u) ≤ String.length u).
    { induction u as [| y u IHu]; simpl; [done |]. destruct (ascii_isspace y); simpl; lia. }
    specialize (Hlen t). rewrite Hfix in Hlen. simpl in Hlen. lia.
  - rewrite PyStrFacts.app_cons. simpl. destruct (ascii_isspace c).
    + exact IH.
    + exists (String c a). by rewrite PyStrFacts.app_cons.
Qed.

Lemma rstrip_keeps_front (t : string) :
  t ≠ "" → ascii_rstrip t = t → ∀ b, ∃ b', ascii_rstrip (t +:+ b) = t +:+ b'.
Proof.
  induction t as [| c t IH]; [done |]. intros _ Hfix b.
  rewrite PyStrNorm.rstrip_cons in Hfix. rewrite PyStrFacts.app_cons, PyStrNorm.rstrip_cons.
  destruct t as [| d t].
  - rewrite PyStrFacts.app_nil_l. simpl in Hfix.
    destruct (ascii_isspace c) eqn:Hc; [done |].
    destruct (ascii_rstrip b) as [| y r] eqn:Hb.
    + exists "". by rewrite PyStrFacts.app_cons.
    + exists (String y r). by rewrite PyStrFacts.app_cons.
  - destruct (ascii_rstrip (String d t)) as [| y r] eqn:Hr.
    + by destruct (ascii_isspace c).
    + injection Hfix as -> ->.
      destruct (IH ltac:(done) eq_refl b) as [b' Hb']. rewrite Hb'.
      exists b'. by rewrite !PyStrFacts.app_cons.
Qed.

Lemma rstrip_keeps (t : string) :
  t ≠ "" → ascii_rstrip t = t → ∀ a b, ∃ b', ascii_rstrip (a +:+ t +:+ b) = a +:+ t +:+ b'.
Proof.
  intros Ht Hfix a b. induction a as [| c a IH].
  - rewrite PyStrFacts.app_nil_l. destruct (rstrip_keeps_front t Ht Hfix b) as [b' Hb'].
    exists b'. by rewrite PyStrFacts.app_nil_l.
  - destruct IH as [b' Hb']. exists b'.
    rewrite !PyStrFacts.app_cons, PyStrNorm.rstrip_cons, Hb'.
    destruct (a +:+ t +:+ b') eqn:Hnil; [| done].
    destruct a; [destruct t; [done | discriminate Hnil] | discriminate Hnil].
Qed.

(** Stripping a text does not remove an occurrence of a text that has
    no white space at either of its own ends. *)
Lemma str_in_strip (t s : string) :
  t ≠ "" → ascii_lstrip t = t → ascii_rstrip t = t →
  str_in t s = true → str_in t (ascii_strip s) = true.
Proof.
  intros Ht Hl Hr (a & b & ->)%PyStrFacts.str_in_spec.
  unfold ascii_strip. destruct (lstrip_keeps t Ht Hl a b) as [a' ->].
  destruct (rstrip_keeps t Ht Hr a' b) as [b' ->].
  apply PyStrFacts.str_in_spec. by exists a', b'.
Qed.

Lemma str_in_lower (t s : string) :
  str_in t s = true → str_in (ascii_lower t) (ascii_lower s) = true.
Proof.
  intros (a & b & ->)%PyStrFacts.str_in_spec. rewrite !lower_app.
  apply PyStrFacts.str_in_spec. by exists (ascii_lower a), (ascii_lower b).
Qed.

End PyStrOccur.

Module PyStrAscii.
Import PyStr.

Lemma is_graphic_lstrip (t : string) : is_graphic t = true → ascii_lstrip t = t.
Proof.
  destruct t as [| c t]; [done |]. simpl. intros [Hc _]%andb_prop.
  assert (ascii_isspace c = false) as ->; [| done].
  unfold ascii_isspace. apply andb_prop in Hc as [H1 H2].
  apply N.leb_le in H1. apply N.leb_le in H2.
  apply orb_false_iff; split; apply andb_false_iff.
  - right. apply N.leb_gt. lia.
  - right. apply N.leb_gt. lia.
Qed.

Lemma is_graphic_rstrip (t : string) : is_graphic t = true → ascii_rstrip t = t.
Proof.
  induction t as [| c t IH]; [done |]. simpl. intros [Hc Ht]%andb_prop.
  rewrite (IH Ht). destruct t; [| done].
  assert (ascii_isspace c = false) as ->; [| done].
  unfold ascii_isspace. apply andb_prop in Hc as [H1 H2].
  apply N.leb_le in H1. apply N.leb_le in H2.
  apply orb_false_iff; split; apply andb_false_iff.
  - right. apply N.leb_gt. lia.
  - right. apply N.leb_gt. lia.
Qed.

Lemma is_ascii_lower (s : string) : is_ascii (ascii_lower s) = is_ascii s.
Proof.
  induction s as [| c s IH]; [done |]. simpl. rewrite IH. f_equal.
  by destruct c as [[] [] [] [] [] [] [] []].
Qed.

Lemma is_ascii_app (a b : string) : is_ascii (a +:+ b) = is_ascii a && is_ascii b.
Proof.
  induction a as [| c a IH]; [by rewrite PyStrFacts.app_nil_l |].
  rewrite PyStrFacts.app_cons. simpl. by rewrite IH, andb_assoc.
Qed.

Lemma is_ascii_str_in (t s : string) :
  str_in t s = true → is_ascii s = true → is_ascii t = true.
Proof.
  intros (a & b & ->)%PyStrFacts.str_in_spec. rewrite !is_ascii_app.
  by intros [_ [? _]%andb_prop]%andb_prop.
Qed.

(** The ASCII versions satisfy every law asked of [lower] and [strip]. *)
Global Instance ascii_lawful : Lawful ascii_text.
Proof.
  split; simpl.
  - exact PyStrNorm.lower_idem.
  - exact PyStrNorm.normal_form_idem.
  - done.
  - done.
  - intros t s Ht Hg. apply PyStrOccur.str_in_strip; [done | |].
    + by apply is_graphic_lstrip.
    + by apply is_graphic_rstrip.
Qed.

End PyStrAscii.

(** ** Facts about insertion-ordered dictionaries *)

Module PyDictFacts.
Import PyDict.
Section dict_facts.
Context {V : Type}.

Lemma get_Some_keys (d : dict V) (k : string) : is_Some (get d k) ↔ k ∈ keys d.
Proof.
  induction d as [|[k' v'] d IH]; simpl.
  - split; [by intros [? ?] | by intros ?%elem_of_nil].
  - rewrite elem_of_cons. case_decide as Hk; subst.
    + split; [by left | by eexists].
    + rewrite IH. split; [by right | by intros [-> | ?]].
Qed.

Lemma get_None_keys (d : dict V) (k : string) : get d k = None ↔ k ∉ keys d.
Proof. rewrite <- get_Some_keys, eq_None_not_Some. done. Qed.

Lemma get_set_eq (d : dict V) (k : string) (v : V) : get (set d k v) k = Some v.
Proof.
  induction d as [|[k' v'] d IH]; simpl.
  - by rewrite decide_True.
  - case_decide as Hk; simpl; [by rewrite decide_True | by rewrite decide_False].
Qed.

Lemma get_set_ne (d : dict V) (k k' : string) (v : V) :
  k ≠ k' → get (set d k v) k' = get d k'.
Proof.
  intros Hne. induction d as [|[k0 v0] d IH]; simpl.
  - by rewrite decide_False.
  - case_decide as Hk; simpl; [subst; by rewrite !decide_False | by rewrite IH].
Qed.

(** Assigning to a key that is present changes neither the keys nor
    their order. *)
Lemma keys_set_present (d : dict V) (k : string) (v : V) :
  k ∈ keys d → keys (set d k v) = keys d.
Proof.
  induction d as [|[k' v'] d IH]; simpl; [by intros ?%elem_of_nil |].
  rewrite elem_of_cons. intros Hin. case_decide as Hk; simpl; [done |].
  f_equal. apply IH. by destruct Hin as [-> | ?].
Qed.

(** Assigning to a new key puts it last. *)
Lemma keys_set_absent (d : dict V) (k : string) (v : V) :
  k ∉ keys d → keys (set d k v) = keys d ++ [k].
Proof.
  induction d as [|[k' v'] d IH]; simpl; [done |].
  rewrite not_elem_of_cons. intros [Hne Hnin].
  rewrite decide_False by done. simpl. f_equal. by apply IH.
Qed.

Lemma keys_set_incl (d : dict V) (k k' : string) (v : V) :
  k' ∈ keys d → k' ∈ keys (set d k v).
Proof.
  intros Hin. destruct (decide (k ∈ keys d)) as [Hk | Hk].
  - by rewrite keys_set_present.
  - rewrite keys_set_absent by done. apply elem_of_app. by left.
Qed.

Lemma keys_set_NoDup (d : dict V) (k : string) (v : V) :
  NoDup (keys d) → NoDup (keys (set d k v)).
Proof.
  intros Hnd. destruct (decide (k ∈ keys d)) as [Hk | Hk].
  - by rewrite keys_set_present.
  - rewrite keys_set_absent by done. apply NoDup_app. split_and!; [done | | apply NoDup_singleton].
    intros x Hx ->%list_elem_of_singleton. done.
Qed.

End dict_facts.
End PyDictFacts.

(** ** Properties of the matcher *)

Lemma default_whitelist_ok : whitelist_ok default_whitelist.
Proof.
  unfold whitelist_ok, fuzzy_matches, default_whitelist. simpl.
  repeat (apply Forall_cons; split; [set_solver |]). apply Forall_nil. done.
Qed.

Lemma add_to_whitelist_ok {N : PyStr.Text} whitelist trigger script_path description :
  whitelist_ok whitelist →
  whitelist_ok (add_to_whitelist whitelist trigger script_path description).
Proof.
  unfold whitelist_ok, add_to_whitelist. intros Hok.
  eapply Forall_impl; [exact Hok |].
  intros [k t] Hin. by apply PyDictFacts.keys_set_incl.
Qed.

Lemma direct_match_None whitelist command_text :
  direct_match whitelist command_text = None ↔
  ∀ t, t ∈ PyDict.keys whitelist → PyStr.str_in t command_text = false.
Proof.
  induction whitelist as [|[t c] wl IH]; simpl.
  - split; [by intros _ ? ?%elem_of_nil | done].
  - destruct (PyStr.str_in t command_text) eqn:Ht.
    + split; [done | intros H; specialize (H t); rewrite Ht in H; discriminate H; by left].
    + rewrite IH. split.
      * intros H t' [-> | Hin]%elem_of_cons; [done | by apply H].
      * intros H t' Hin. apply H. by right.
Qed.

(** The first loop stops at the first trigger that occurs in the text. *)
Lemma direct_match_first before t c after command_text :
  (∀ t', t' ∈ PyDict.keys before → PyStr.str_in t' command_text = false) →
  PyStr.str_in t command_text = true →
  direct_match (before ++ (t, c) :: after) command_text = Some (with_trigger t c).
Proof.
  induction before as [|[t0 c0] before IH]; simpl; intros Hb Ht.
  - by rewrite Ht.
  - rewrite (Hb t0) by by left. apply IH; [| done].
    intros t' Hin. apply Hb. by right.
Qed.

Lemma fuzzy_match_first before k t after whitelist command_text c :
  (∀ k', k' ∈ PyDict.keys before → PyStr.str_in k' command_text = false) →
  PyStr.str_in k command_text = true →
  PyDict.get whitelist t = Some c →
  fuzzy_match (before ++ (k, t) :: after) whitelist command_text
  = Returned (Some (with_trigger t c)).
Proof.
  induction before as [|[k0 t0] before IH]; simpl; intros Hb Hk Hc.
  - by rewrite Hk, Hc.
  - rewrite (Hb k0) by by left. apply IH; [| done..].
    intros k' Hin. apply Hb. by right.
Qed.

Lemma fuzzy_match_None table whitelist command_text :
  (∀ k, k ∈ PyDict.keys table → PyStr.str_in k command_text = false) →
  fuzzy_match table whitelist command_text = Returned None.
Proof.
  induction table as [|[k t] table IH]; simpl; intros H; [done |].
  rewrite (H k) by by left. apply IH. intros k' Hin. apply H. by right.
Qed.

Lemma fuzzy_match_returns table whitelist command_text :
  Forall (λ kt, kt.2 ∈ PyDict.keys whitelist) table →
  ∃ r, fuzzy_match table whitelist command_text = Returned r.
Proof.
  induction 1 as [|[k t] table Hin _ IH]; simpl; [by eexists |].
  destruct (PyStr.str_in k command_text); [| done].
  simpl in Hin. apply PyDictFacts.get_Some_keys in Hin as [c Hc]. rewrite Hc. by eexists.
Qed.

Lemma _match_command_returns whitelist command_text :
  whitelist_ok whitelist →
  ∃ r, _match_command whitelist command_text = Returned r.
Proof.
  intros Hok. unfold _match_command.
  destruct (direct_match whitelist command_text); [by eexists |].
  by apply fuzzy_match_returns.
Qed.

(** Whatever the matcher returns is an entry of the whitelist under its
    own trigger. *)
Lemma direct_match_Some whitelist command_text m :
  direct_match whitelist command_text = Some m →
  trigger m ∈ PyDict.keys whitelist ∧ PyStr.str_in (trigger m) command_text = true.
Proof.
  induction whitelist as [|[t c] wl IH]; simpl; [done |].
  destruct (PyStr.str_in t command_text) eqn:Ht.
  - intros [= <-]. simpl. split; [by left | done].
  - intros [Hin ?]%IH. split; [by right | done].
Qed.

(** ** Properties of the store operations *)

Lemma fresh_unused (h : gmap loc object) : h !! fresh (dom h) = None.
Proof. apply not_elem_of_dom, is_fresh. Qed.

Lemma fresh_ne (h : gmap loc object) (l : loc) : is_Some (h !! l) → fresh (dom h) ≠ l.
Proof. intros [o Ho] Heq. rewrite <- Heq, fresh_unused in Ho. discriminate. Qed.

Section engine_facts.
Context {N : PyStr.Text} (O : oracle).

Lemma _log_command_run self command_text cve w items :
  heap w !! command_history self = Some (PyList items) →
  let l := fresh (dom (heap w)) in
  let now := clock_now O (trace w) in
  _log_command O self command_text cve w =
    (Returned tt,
     World (<[command_history self := PyList (items ++ [l])]>
              (<[l := PyLogEntry (LogEntry now command_text cve "voice_command")]> (heap w)))
           (files w) (trace w ++ [EvNow now])).
Proof.
  intros Hh. unfold _log_command, datetime_now_isoformat, ask, alloc, list_append,
    load_list, load, store, bind, ret. simpl.
  rewrite lookup_insert_ne by (apply fresh_ne; eauto). by rewrite Hh.
Qed.

(** The executor turns every exception into a message. *)
Lemma _execute_command_returns c original_text cve w :
  ∃ s, run_in (_execute_command O c original_text cve) w = Returned s.
Proof.
  unfold run_in, _execute_command, try_except.
  match goal with |- context [match ?m w with _ => _ end] => destruct (m w) as [[s | e] w'] end;
    by eexists.
Qed.
End engine_facts.

Section run_facts.
Context {N : PyStr.Text} (O : oracle).

Ltac unfold_monad :=
  unfold os_path_exists, os_access_X_OK, os_makedirs, append_to_file, file_extend, subprocess_run,
    datetime_now_isoformat, environ_copy, environ_setitem, load_environ, load, store,
    alloc, ask, of_outcome, try_except, bind, raise, ret.

Lemma _execute_script_run script_path command_name cve_id w :
  script_run O script_path command_name cve_id w
    (_execute_script O script_path command_name cve_id w).1
    (_execute_script O script_path command_name cve_id w).2.
Proof.
  unfold _execute_script. unfold_monad. simpl.
  destruct (fs_exists O (trace w) script_path) eqn:Hex; simpl; [| by constructor].
  destruct (fs_access_x O _ script_path) as [[|] | e] eqn:Hacc; simpl.
  - rewrite <- !(assoc_L (++)). simpl.
    destruct (heap w !! os_environ) as [[items | entry | vars] |] eqn:Henv; simpl;
      try (apply script_no_environ; [done | done | congruence]).
    destruct (PyStr.truthy cve_id) eqn:Hcve; simpl;
      repeat (rewrite lookup_insert_eq; simpl);
      rewrite ?insert_insert_eq, <- ?(assoc_L (++)); simpl.
    + set (now := clock_now O _).
      pose proof (script_spawned O script_path command_name cve_id w vars now _
                    Hex Hacc Henv eq_refl eq_refl) as H.
      unfold child_environment in H. rewrite Hcve in H.
      destruct (proc_run O _ script_path _ 300) as [[code out err] | [msg | key | msg]];
        simpl in *; [destruct (code =? 0)%Z |..]; exact H.
    + set (now := clock_now O _).
      pose proof (script_spawned O script_path command_name cve_id w vars now _
                    Hex Hacc Henv eq_refl eq_refl) as H.
      unfold child_environment in H. rewrite Hcve in H.
      destruct (proc_run O _ script_path _ 300) as [[code out err] | [msg | key | msg]];
        simpl in *; [destruct (code =? 0)%Z |..]; exact H.
  - rewrite <- !(assoc_L (++)). simpl. by constructor.
  - rewrite <- !(assoc_L (++)). simpl. by constructor.
Qed.

Lemma _handle_acknowledgment_run cve_id w :
  ack_run O cve_id w (_handle_acknowledgment O cve_id w).1
                     (_handle_acknowledgment O cve_id w).2.
Proof.
  unfold _handle_acknowledgment. unfold_monad. simpl.
  change (os_path_join "logs" "acknowledgments.log") with ack_file.
  set (now := clock_now O (trace w)).
  assert (Hline : ("Incident acknowledged at " +:+ now +:+
                    (if PyStr.truthy cve_id then " for " +:+ default "" cve_id else ""))
                  = (if PyStr.truthy cve_id
                     then ("Incident acknowledged at " +:+ now) +:+ " for " +:+ default "" cve_id
                     else "Incident acknowledged at " +:+ now)).
  { destruct (PyStr.truthy cve_id); [by rewrite PyStrFacts.app_assoc |].
    by rewrite PyStrFacts.app_nil_r. }
  assert (Hal : ack_line now cve_id
                = now +:+ ": " +:+
                  (if PyStr.truthy cve_id
                   then ("Incident acknowledged at " +:+ now) +:+ " for " +:+ default "" cve_id
                   else "Incident acknowledged at " +:+ now) +:+ PyStr.LF).
  { unfold ack_line. by rewrite Hline. }
  rewrite <- Hal.
  destruct (fs_makedirs O _ "logs") as [[] | e] eqn:Hmk; simpl;
    rewrite <- ?(assoc_L (++)); simpl; [| by constructor].
  destruct (fs_append O _ ack_file _) as [| e | e reached] eqn:Hap; simpl;
    rewrite <- ?(assoc_L (++)); simpl; by constructor.
Qed.
End run_facts.

(** ** A started engine *)

Lemma sample_started code err :
  __init__ (calm code err) "scripts" (initial_world ∅) = (Returned sample_engine, sample_world).
Proof. by vm_compute. Qed.

Lemma sample_ok : engine_ok sample_engine sample_world.
Proof.
  split; [split; eexists; by vm_compute | apply default_whitelist_ok].
Qed.

(** The constructor establishes the invariant whenever it returns. *)
Lemma __init___ok (O : oracle) (dir : string) (w : world) (self : engine) (w' : world) :
  (∃ vars, heap w !! os_environ = Some (PyEnviron vars)) →
  __init__ O dir w = (Returned self, w') →
  engine_ok self w'.
Proof.
  intros [vars Hv]. unfold __init__, os_makedirs, alloc, ask, of_outcome, bind, ret. simpl.
  destruct (fs_makedirs O (trace w) dir) as [[] | e]; simpl; [| done].
  intros [= <- <-]. split; [| apply default_whitelist_ok].
  split; simpl.
  - eexists. apply lookup_insert_eq.
  - exists vars. rewrite lookup_insert_ne; [done |]. apply fresh_ne. eauto.
Qed.

(** ** Unmatched input *)

Lemma occurs_nowhere_elem command_text keys :
  occurs_nowhere command_text keys →
  ∀ k, k ∈ keys → PyStr.str_in k command_text = false.
Proof. unfold occurs_nowhere. rewrite Forall_forall. done. Qed.

(** C3. When the lower-cased, trimmed input contains no trigger of the
    whitelist and no keyword of the fuzzy table, [process_voice_command]
    returns the help response; that response names every key of the
    whitelist between quotes, and for the initial whitelist it is the
    text with the five default triggers. *)
Theorem unmatched_input_gets_help {N : PyStr.Text} (O : oracle) (self : engine) (w : world)
    (command_text : string) (cve_id : option string) :
  store_ok self w →
  occurs_nowhere (PyStr.strip (PyStr.lower command_text))
                 (PyDict.keys (command_whitelist self)) →
  occurs_nowhere (PyStr.strip (PyStr.lower command_text)) (PyDict.keys fuzzy_matches) →
  run_in (process_voice_command O self command_text cve_id) w
    = Returned (_get_help_response (command_whitelist self))
  ∧ (∀ t, t ∈ PyDict.keys (command_whitelist self) →
          PyStr.str_in ("'" +:+ t +:+ "'") (_get_help_response (command_whitelist self)) = true)
  ∧ _get_help_response default_whitelist
    = "Unknown command. Available commands: 'start patching', 'quarantine servers', 'acknowledge incident', 'emergency shutdown', 'status report'. Please try again.".
Proof.
  intros [[items Hh] _] Hdirect Hfuzzy. split_and!.
  - unfold run_in, process_voice_command, bind.
    rewrite (_log_command_run O _ _ _ _ items Hh). cbv zeta.
    unfold _match_command, of_outcome.
    rewrite (proj2 (direct_match_None _ _) (occurs_nowhere_elem _ _ Hdirect)).
    by rewrite (fuzzy_match_None _ _ _ (occurs_nowhere_elem _ _ Hfuzzy)).
  - intros t Hin. unfold _get_help_response. cbv zeta.
    pose proof (PyStrFacts.join_quoted _ _ Hin) as Hq.
    replace ("Unknown command. Available commands: '"
               +:+ PyStr.join "', '" (PyDict.keys (command_whitelist self))
               +:+ "'. Please try again.")
      with ("Unknown command. Available commands: "
               +:+ ("'" +:+ PyStr.join "', '" (PyDict.keys (command_whitelist self)) +:+ "'")
               +:+ ". Please try again.").
    + by apply PyStrFacts.str_in_app_r, PyStrFacts.str_in_app_l.
    + rewrite !PyStrFacts.app_assoc. reflexivity.
  - reflexivity.
Qed.

Lemma unmatched_input_gets_help_xyzzy :
  store_ok sample_engine sample_world
  ∧ occurs_nowhere (PyStr.strip (PyStr.lower "xyzzy")) (PyDict.keys default_whitelist)
  ∧ occurs_nowhere (PyStr.strip (PyStr.lower "xyzzy")) (PyDict.keys fuzzy_matches)
  ∧ run_in (process_voice_command (calm 0 "") sample_engine "xyzzy" None) sample_world
    = Returned "Unknown command. Available commands: 'start patching', 'quarantine servers', 'acknowledge incident', 'emergency shutdown', 'status report'. Please try again.".
Proof.
  assert (H1 : store_ok sample_engine sample_world)
    by (split; eexists; by vm_compute).
  assert (H2 : occurs_nowhere (PyStr.strip (PyStr.lower "xyzzy")) (PyDict.keys default_whitelist))
    by (repeat constructor).
  assert (H3 : occurs_nowhere (PyStr.strip (PyStr.lower "xyzzy")) (PyDict.keys fuzzy_matches))
    by (repeat constructor).
  split_and!; [done.. |].
  exact (proj1 (unmatched_input_gets_help (calm 0 "") sample_engine sample_world "xyzzy" None
                  H1 H2 H3)).
Defined.

(** ** Resolution order *)

(** C2, as the code has it.  [_match_command] returns the entry of the
    first trigger, in insertion order, that occurs in the text; only when
    no trigger occurs, the first keyword of the fuzzy table, in the
    table's order, that occurs in the text selects the entry of its
    trigger; when neither occurs the result is [None].  So a text that
    contains a trigger T resolves to T's entry when no trigger registered
    before T occurs in it too, and a text with keyword K and no trigger
    resolves to the entry K points to when no earlier keyword occurs. *)
Theorem match_returns_first_hit (whitelist : PyDict.dict command_entry)
    (command_text : string) :
  (∀ before t c after,
      whitelist = before ++ (t, c) :: after →
      occurs_nowhere command_text (PyDict.keys before) →
      PyStr.str_in t command_text = true →
      _match_command whitelist command_text = Returned (Some (with_trigger t c)))
  ∧ (∀ before k t after c,
      fuzzy_matches = before ++ (k, t) :: after →
      occurs_nowhere command_text (PyDict.keys whitelist) →
      occurs_nowhere command_text (PyDict.keys before) →
      PyStr.str_in k command_text = true →
      PyDict.get whitelist t = Some c →
      _match_command whitelist command_text = Returned (Some (with_trigger t c)))
  ∧ (occurs_nowhere command_text (PyDict.keys whitelist) →
     occurs_nowhere command_text (PyDict.keys fuzzy_matches) →
     _match_command whitelist command_text = Returned None).
Proof.
  split_and!.
  - intros before t c after -> Hb Ht. unfold _match_command.
    by rewrite (direct_match_first _ _ _ _ _ (occurs_nowhere_elem _ _ Hb) Ht).
  - intros before k t after c Htable Hw Hb Hk Hc. unfold _match_command.
    rewrite (proj2 (direct_match_None _ _) (occurs_nowhere_elem _ _ Hw)).
    rewrite Htable.
    by apply fuzzy_match_first; [apply occurs_nowhere_elem | |].
  - intros Hw Hf. unfold _match_command.
    rewrite (proj2 (direct_match_None _ _) (occurs_nowhere_elem _ _ Hw)).
    by apply fuzzy_match_None, occurs_nowhere_elem.
Qed.

(** The spoken sentence of the scenario resolves to the first entry, and
    the bare keyword [ack] to the acknowledgment entry. *)
Lemma match_returns_first_hit_examples :
  _match_command default_whitelist "please start patching now"
    = Returned (Some (CommandConfig "start patching" (Some "scripts/patch_r2s.sh")
                        "Initiate automated patching process" false))
  ∧ _match_command default_whitelist "ack"
    = Returned (Some (CommandConfig "acknowledge incident" None
                        "Log incident acknowledgment" false)).
Proof.
  split.
  - refine (proj1 (match_returns_first_hit default_whitelist "please start patching now")
              [] "start patching" _ _ eq_refl _ eq_refl).
    constructor.
  - refine (proj1 (proj2 (match_returns_first_hit default_whitelist "ack"))
              [("patch", "start patching"); ("quarantine", "quarantine servers");
               ("isolate", "quarantine servers"); ("acknowledge", "acknowledge incident")]
              "ack" "acknowledge incident" _ _ eq_refl _ _ eq_refl eq_refl);
      repeat constructor.
Defined.

(** C2 as worded does not hold: a text can contain a registered trigger
    and resolve to another one registered earlier, and a text with a
    keyword and no trigger can resolve through a keyword listed earlier.
    Both texts below are already lower-case and trimmed. *)
Lemma later_hit_is_shadowed :
  ("status report" ∈ PyDict.keys default_whitelist
   ∧ PyStr.strip (PyStr.lower "status report after start patching")
     = "status report after start patching"
   ∧ PyStr.str_in "status report" "status report after start patching" = true
   ∧ ∃ c, _match_command default_whitelist "status report after start patching"
          = Returned (Some c)
        ∧ trigger c = "start patching" ∧ trigger c ≠ "status report")
  ∧ (PyDict.get fuzzy_matches "ack" = Some "acknowledge incident"
     ∧ PyStr.strip (PyStr.lower "ack the patch") = "ack the patch"
     ∧ PyStr.str_in "ack" "ack the patch" = true
     ∧ occurs_nowhere "ack the patch" (PyDict.keys default_whitelist)
     ∧ ∃ c, _match_command default_whitelist "ack the patch" = Returned (Some c)
          ∧ trigger c = "start patching" ∧ trigger c ≠ "acknowledge incident").
Proof.
  split.
  - split_and!; [set_solver | reflexivity | reflexivity |].
    eexists. split_and!; [reflexivity | reflexivity | discriminate].
  - split_and!; [reflexivity | reflexivity | reflexivity | repeat constructor |].
    eexists. split_and!; [reflexivity | reflexivity | discriminate].
Qed.

(** ** Registration *)

(** C7, as the code has it.  [add_custom_command] has no overwrite
    switch and cannot fail: under the lower-cased trigger the whitelist
    afterwards holds the new script and description with confirmation
    required, whether or not the key was there; a key that was there
    keeps its place in the order and a new key goes last; every other
    entry, the history and the scripts directory are as before. *)
Theorem add_custom_command_always_stores {N : PyStr.Text} (self : engine)
    (trigger script_path description : string) :
  let self' := add_custom_command self trigger script_path description in
  let key := PyStr.lower trigger in
  PyDict.get (command_whitelist self') key
    = Some (CommandEntry (Some script_path) description true)
  ∧ (∀ k, k ≠ key →
          PyDict.get (command_whitelist self') k = PyDict.get (command_whitelist self) k)
  ∧ (key ∈ PyDict.keys (command_whitelist self) →
     PyDict.keys (command_whitelist self') = PyDict.keys (command_whitelist self))
  ∧ (key ∉ PyDict.keys (command_whitelist self) →
     PyDict.keys (command_whitelist self') = PyDict.keys (command_whitelist self) ++ [key])
  ∧ command_history self' = command_history self
  ∧ scripts_dir self' = scripts_dir self.
Proof.
  cbv zeta. unfold add_custom_command, add_to_whitelist. simpl. split_and!.
  - apply PyDictFacts.get_set_eq.
  - intros k Hk. by apply PyDictFacts.get_set_ne.
  - apply PyDictFacts.keys_set_present.
  - apply PyDictFacts.keys_set_absent.
  - done.
  - done.
Qed.

Lemma add_custom_command_always_stores_example :
  "start patching" ∈ PyDict.keys (command_whitelist sample_engine)
  ∧ PyDict.keys (command_whitelist
                   (add_custom_command sample_engine "Start Patching" "/tmp/other.sh" "Other"))
    = PyDict.keys (command_whitelist sample_engine).
Proof.
  assert (H : "start patching" ∈ PyDict.keys (command_whitelist sample_engine))
    by (simpl; set_solver).
  split; [exact H |].
  exact (proj1 (proj2 (proj2
           (add_custom_command_always_stores sample_engine "Start Patching" "/tmp/other.sh" "Other")))
           H).
Defined.

(** C7 as worded does not hold: registering under a trigger that is
    present replaces the entry, with nothing asked for. *)
Lemma registering_again_replaces :
  PyDict.get (command_whitelist sample_engine) "start patching"
    = Some (CommandEntry (Some "scripts/patch_r2s.sh") "Initiate automated patching process" false)
  ∧ PyDict.get (command_whitelist
                  (add_custom_command sample_engine "Start Patching" "/tmp/other.sh" "Other"))
               "start patching"
    = Some (CommandEntry (Some "/tmp/other.sh") "Other" true)
  ∧ PyDict.get (command_whitelist
                  (add_custom_command sample_engine "Start Patching" "/tmp/other.sh" "Other"))
               "start patching"
    ≠ PyDict.get (command_whitelist sample_engine) "start patching".
Proof. split_and!; [reflexivity | reflexivity | discriminate]. Qed.

(** ** The executor *)

Ltac event_cases H :=
  repeat (apply elem_of_cons in H as [H | H];
          [first [discriminate H | injection H as ?; simplify_eq] |]);
  try (by apply elem_of_nil in H);
  repeat match goal with
         | Heq : Returned _ = proc_run _ _ _ _ _ |- _ => rewrite <- Heq in *; clear Heq
         | Heq : Raised _ = proc_run _ _ _ _ _ |- _ => rewrite <- Heq in *; clear Heq
         end.

Section executor_facts.
Context {N : PyStr.Text} (O : oracle).

Lemma _execute_command_script c original_text cve w p :
  trigger c ≠ builtin_trigger → cfg_script c = Some p → p ≠ "" →
  ∃ r w', script_run O p (trigger c) cve w r w'
          ∧ _execute_command O c original_text cve w
            = (Returned (recovered (trigger c) r), w').
Proof.
  intros Ht Hs Hp. pose proof (_execute_script_run O p (trigger c) cve w) as Hrun.
  unfold _execute_command, try_except. cbv zeta.
  rewrite bool_decide_false by done. rewrite Hs.
  destruct p as [| a p]; [done |]. simpl.
  destruct (_execute_script O (String a p) (trigger c) cve w) as [[reply | e] w'];
    simpl in Hrun; eauto.
Qed.

Lemma _execute_command_builtin c original_text cve w :
  trigger c = builtin_trigger →
  ∃ r w', ack_run O cve w r w'
          ∧ _execute_command O c original_text cve w
            = (Returned (recovered (trigger c) r), w').
Proof.
  intros Ht. pose proof (_handle_acknowledgment_run O cve w) as Hrun.
  unfold _execute_command, try_except. cbv zeta.
  rewrite bool_decide_true by done.
  destruct (_handle_acknowledgment O cve w) as [[reply | e] w']; simpl in Hrun; eauto.
Qed.

Lemma _execute_command_no_action c original_text cve w :
  trigger c ≠ builtin_trigger → PyStr.truthy (cfg_script c) = false →
  _execute_command O c original_text cve w
  = (Returned ("Command '" +:+ trigger c +:+ "' recognized but no action configured."), w).
Proof.
  intros Ht Hs. unfold _execute_command, try_except, ret. cbv zeta.
  rewrite bool_decide_false by done. by rewrite Hs.
Qed.
End executor_facts.

(** C1, as the code has it.  For an entry with a script whose trigger is
    not the acknowledgment one, when the script was run and exited with
    code 0 the reply is the trigger followed by " completed
    successfully."; when it exited with any other code the reply is the
    trigger followed by " failed. Check logs for details.", whatever the
    script wrote to its standard output and error. *)
Theorem script_reply_names_trigger (O : oracle) (c : command_config)
    (original_text : string) (cve_id : option string) (w : world) (p : string) :
  trigger c ≠ builtin_trigger → cfg_script c = Some p → p ≠ "" →
  ∃ reply w' evs,
    _execute_command O c original_text cve_id w = (Returned reply, w')
    ∧ trace w' = trace w ++ evs
    ∧ ∀ env timeout result,
        EvRun p env timeout (Returned result) ∈ evs →
        (returncode result = 0%Z → reply = trigger c +:+ " completed successfully.")
        ∧ (returncode result ≠ 0%Z → reply = trigger c +:+ " failed. Check logs for details.").
Proof.
  intros Ht Hs Hp.
  destruct (_execute_command_script O c original_text cve_id w p Ht Hs Hp)
    as (r & w' & Hrun & ->).
  destruct Hrun; do 3 eexists; (split_and!; [reflexivity | reflexivity |]);
    intros env timeout result Hev; event_cases Hev.
  simpl. destruct (returncode result =? 0)%Z eqn:Hcode.
  - apply Z.eqb_eq in Hcode. split; [done | intros; congruence].
  - apply Z.eqb_neq in Hcode. split; [intros; congruence | done].
Qed.

Lemma script_reply_names_trigger_status :
  let c := CommandConfig "status report" (Some "scripts/status_check.sh")
                         "Generate system status report" false in
  trigger c ≠ builtin_trigger
  ∧ cfg_script c = Some "scripts/status_check.sh"
  ∧ "scripts/status_check.sh" ≠ ""
  ∧ ∃ reply w' evs,
      _execute_command (calm 3 "disk full") c "status" None sample_world = (Returned reply, w')
      ∧ trace w' = trace sample_world ++ evs
      ∧ ∀ env timeout result,
          EvRun "scripts/status_check.sh" env timeout (Returned result) ∈ evs →
          (returncode result = 0%Z → reply = "status report" +:+ " completed successfully.")
          ∧ (returncode result ≠ 0%Z → reply = "status report" +:+ " failed. Check logs for details.").
Proof.
  cbv zeta. split_and!; [discriminate | reflexivity | discriminate |].
  apply (script_reply_names_trigger (calm 3 "disk full")
           (CommandConfig "status report" (Some "scripts/status_check.sh")
                          "Generate system status report" false)
           "status" None sample_world "scripts/status_check.sh");
    [discriminate | reflexivity | discriminate].
Defined.

(** C1 as worded does not hold: the scenario's sentence, with the script
    run and exit code 0, is answered with the trigger and not with the
    description of the entry. *)
Lemma success_reply_lacks_description :
  let r := process_voice_command (calm 0 "") sample_engine
             "please start patching now" (Some "CVE-2025-55182") sample_world in
  last (trace r.2)
    = Some (EvRun "scripts/patch_r2s.sh"
              (child_environment ∅ (Some "CVE-2025-55182") "2025-12-06T10:15:30.123456")
              300 (Returned (CompletedProcess 0 "" "")))
  ∧ r.1 = Returned "start patching completed successfully."
  ∧ r.1 ≠ Returned "Initiate automated patching process completed successfully."
  ∧ PyStr.str_in "Initiate automated patching process"
                 "start patching completed successfully." = false.
Proof.
  cbv zeta. split_and!.
  - by vm_compute.
  - by vm_compute.
  - vm_compute. discriminate.
  - reflexivity.
Qed.



(** With no script in place the reply is the configuration message. *)
Example missing_script_reply :
  run_in (process_voice_command no_scripts sample_engine "Emergency SHUTDOWN, now!" None)
         sample_world
  = Returned "Script scripts/emergency_shutdown.sh not found. Please check configuration.".
Proof. by vm_compute. Qed.

(** C8, as the code has it.  The built-in handler is chosen by the
    trigger: an entry named "acknowledge incident" is run by
    [_handle_acknowledgment] whatever its script path holds, and an entry
    under any other trigger whose script path is [None] or empty gets the
    reply "Command '<trigger>' recognized but no action configured." with
    nothing done.  In the initial whitelist the only entry without a
    script is the acknowledgment one. *)
Theorem handler_is_chosen_by_trigger (O : oracle) (c : command_config)
    (original_text : string) (cve_id : option string) (w : world) :
  (trigger c ≠ builtin_trigger → PyStr.truthy (cfg_script c) = false →
   _execute_command O c original_text cve_id w
   = (Returned ("Command '" +:+ trigger c +:+ "' recognized but no action configured."), w))
  ∧ (trigger c = builtin_trigger →
     ∃ r w', ack_run O cve_id w r w'
             ∧ _execute_command O c original_text cve_id w
               = (Returned (recovered builtin_trigger r), w'))
  ∧ (∀ t e, (t, e) ∈ default_whitelist → script e = None → t = builtin_trigger).
Proof.
  split_and!.
  - apply _execute_command_no_action.
  - intros Ht. destruct (_execute_command_builtin O c original_text cve_id w Ht)
      as (r & w' & Hrun & Heq). rewrite Ht in Heq. eauto.
  - intros t e Hin Hs. unfold default_whitelist in Hin.
    repeat (apply elem_of_cons in Hin as [Hin | Hin];
            [injection Hin as -> ->; first [discriminate Hs | reflexivity] |]).
    by apply elem_of_nil in Hin.
Qed.

Lemma handler_is_chosen_by_trigger_example :
  let c := CommandConfig "acknowledge incident" (Some "scripts/ack.sh") "Acknowledge" true in
  trigger c = builtin_trigger
  ∧ ∃ r w', ack_run (calm 0 "") None sample_world r w'
            ∧ _execute_command (calm 0 "") c "acknowledge incident" None sample_world
              = (Returned (recovered builtin_trigger r), w').
Proof.
  cbv zeta. split; [reflexivity |].
  exact (proj1 (proj2 (handler_is_chosen_by_trigger (calm 0 "")
                         (CommandConfig "acknowledge incident" (Some "scripts/ack.sh")
                                        "Acknowledge" true)
                         "acknowledge incident" None sample_world))
               eq_refl).
Defined.

(** C8 as worded does not hold: an entry without a script under another
    trigger is answered by the fallback, and nothing is run. *)
Lemma absent_script_falls_through :
  let c := CommandConfig "run diagnostics" None "Run diagnostics" true in
  cfg_script c = None
  ∧ _execute_command (calm 0 "") c "run diagnostics" None sample_world
    = (Returned "Command 'run diagnostics' recognized but no action configured.",
       sample_world).
Proof. cbv zeta. split; reflexivity. Qed.

(** ** Acknowledgment *)

Lemma ack_line_with_id (now id : string) :
  id ≠ "" →
  ack_line now (Some id)
  = now +:+ ": Incident acknowledged at " +:+ now +:+ " for " +:+ id +:+ PyStr.LF.
Proof.
  intros Hid. unfold ack_line. destruct id as [| a id]; [done |]. simpl.
  by rewrite !PyStrFacts.app_assoc.
Qed.

Lemma ack_line_without_id (now : string) (cve_id : option string) :
  PyStr.truthy cve_id = false →
  ack_line now cve_id = now +:+ ": Incident acknowledged at " +:+ now +:+ PyStr.LF.
Proof.
  intros Hid. unfold ack_line. rewrite Hid.
  by rewrite !PyStrFacts.app_assoc, PyStrFacts.app_nil_l.
Qed.

(** C4, as the code has it.  Executing an entry named "acknowledge
    incident" reads the clock, makes sure the directory [logs] exists and
    then tries one append to [logs/acknowledgments.log]; it asks nothing
    about any script and starts no process, and the store is untouched.
    The text to append is "<now>: Incident acknowledged at <now>", then
    " for <cve_id>" when the correlation id is a non-empty string, then a
    line feed.  When the directory cannot be made nothing is opened.
    When the append succeeds the file ends with that text and no other
    file changes; when the file cannot be opened the files are as
    before; when the writing breaks off the file exists and holds what
    it held followed by a leading part of the text, which may be empty.
    Once the directory is there the reply is the fixed confirmation,
    whether or not the text was written and whatever the wording of the
    input. *)
Theorem acknowledgment_is_one_append (O : oracle) (c : command_config)
    (original_text : string) (cve_id : option string) (w : world) :
  trigger c = builtin_trigger →
  ∃ reply w',
    let now := clock_now O (trace w) in
    let line := ack_line now cve_id in
    let made := fs_makedirs O (trace w ++ [EvNow now]) "logs" in
    let written := fs_append O (trace w ++ [EvNow now; EvMakedirs "logs" (Returned tt)])
                     ack_file line in
    let before := default "" (files w !! ack_file) in
    _execute_command O c original_text cve_id w = (Returned reply, w')
    ∧ heap w' = heap w
    ∧ (∀ e, made = Raised e →
         trace w' = trace w ++ [EvNow now; EvMakedirs "logs" (Raised e)]
         ∧ files w' = files w)
    ∧ (made = Returned tt →
         reply = ack_reply
         ∧ trace w' = trace w ++ [EvNow now; EvMakedirs "logs" (Returned tt);
                                  EvAppend ack_file line written]
         ∧ (written = Written → files w' = <[ack_file := before +:+ line]> (files w))
         ∧ (∀ e, written = NotOpened e → files w' = files w)
         ∧ (∀ e reached, written = Broken e reached →
              files w' = <[ack_file := before +:+ substring 0 reached line]> (files w)))
    ∧ (∀ id, cve_id = Some id → id ≠ "" →
         line = now +:+ ": Incident acknowledged at " +:+ now +:+ " for " +:+ id +:+ PyStr.LF)
    ∧ (PyStr.truthy cve_id = false →
         line = now +:+ ": Incident acknowledged at " +:+ now +:+ PyStr.LF).
Proof.
  intros Ht.
  destruct (_execute_command_builtin O c original_text cve_id w Ht) as (r & w' & Hrun & ->).
  assert (Hlines :
    (∀ id, cve_id = Some id → id ≠ "" →
       ack_line (clock_now O (trace w)) cve_id
       = clock_now O (trace w) +:+ ": Incident acknowledged at " +:+ clock_now O (trace w)
           +:+ " for " +:+ id +:+ PyStr.LF)
    ∧ (PyStr.truthy cve_id = false →
       ack_line (clock_now O (trace w)) cve_id
       = clock_now O (trace w) +:+ ": Incident acknowledged at " +:+ clock_now O (trace w)
           +:+ PyStr.LF)).
  { split; [intros id -> Hid; by apply ack_line_with_id | apply ack_line_without_id]. }
  destruct Hlines as [Hwith Hwithout].
  destruct Hrun as [now e Hnow Hmk | now e Hnow Hmk Hap | now e reached Hnow Hmk Hap
                    | now Hnow Hmk Hap]; subst now;
    do 2 eexists; cbv zeta;
    (split_and!; [reflexivity | reflexivity | intros e' Hmk' | intros Hmk'
                  | exact Hwith | exact Hwithout]);
    try congruence.
  - split; [| done]. cbn [trace]. congruence.
  - rewrite Hap. cbn [trace files]. split_and!; try done; congruence.
  - rewrite Hap. cbn [trace files]. split_and!; try done; congruence.
  - rewrite Hap. cbn [trace files]. split_and!; try done; congruence.
Qed.

Lemma acknowledgment_is_one_append_ack :
  let O := calm 0 "" in
  let c := CommandConfig "acknowledge incident" None "Log incident acknowledgment" false in
  let cve_id := Some "CVE-2025-55182" in
  let w := sample_world in
  trigger c = builtin_trigger
  ∧ ∃ reply w',
      let now := clock_now O (trace w) in
      let line := ack_line now cve_id in
      let made := fs_makedirs O (trace w ++ [EvNow now]) "logs" in
      let written := fs_append O (trace w ++ [EvNow now; EvMakedirs "logs" (Returned tt)])
                       ack_file line in
      let before := default "" (files w !! ack_file) in
      _execute_command O c "ack" cve_id w = (Returned reply, w')
      ∧ heap w' = heap w
      ∧ (∀ e, made = Raised e →
           trace w' = trace w ++ [EvNow now; EvMakedirs "logs" (Raised e)]
           ∧ files w' = files w)
      ∧ (made = Returned tt →
           reply = ack_reply
           ∧ trace w' = trace w ++ [EvNow now; EvMakedirs "logs" (Returned tt);
                                    EvAppend ack_file line written]
           ∧ (written = Written → files w' = <[ack_file := before +:+ line]> (files w))
           ∧ (∀ e, written = NotOpened e → files w' = files w)
           ∧ (∀ e reached, written = Broken e reached →
                files w' = <[ack_file := before +:+ substring 0 reached line]> (files w)))
      ∧ (∀ id, cve_id = Some id → id ≠ "" →
           line = now +:+ ": Incident acknowledged at " +:+ now +:+ " for " +:+ id +:+ PyStr.LF)
      ∧ (PyStr.truthy cve_id = false →
           line = now +:+ ": Incident acknowledged at " +:+ now +:+ PyStr.LF).
Proof.
  cbv zeta. split; [reflexivity |].
  exact (acknowledgment_is_one_append (calm 0 "")
           (CommandConfig "acknowledge incident" None "Log incident acknowledgment" false)
           "ack" (Some "CVE-2025-55182") sample_world eq_refl).
Defined.

(** The scenario: the word [ack] alone, on a writable log. *)
Example ack_scenario :
  let r := process_voice_command (calm 0 "") sample_engine "ack" (Some "CVE-2025-55182")
             sample_world in
  r.1 = Returned "Incident acknowledged and logged."
  ∧ files r.2 !! "logs/acknowledgments.log"
    = Some ("2025-12-06T10:15:30.123456: Incident acknowledged at 2025-12-06T10:15:30.123456 for CVE-2025-55182" +:+ PyStr.LF).
Proof. cbv zeta. split; by vm_compute. Qed.

(** C4 as worded does not hold.  When the log cannot be opened the
    acknowledgment is confirmed although no line reached the file; and a
    correlation id that is the empty string is given but not written. *)
Lemma acknowledgment_without_line :
  (let r := process_voice_command read_only_logs sample_engine "ack" (Some "CVE-2025-55182")
              sample_world in
   r.1 = Returned "Incident acknowledged and logged."
   ∧ files r.2 = files sample_world
   ∧ files r.2 !! "logs/acknowledgments.log" = None)
  ∧ (let r := process_voice_command (calm 0 "") sample_engine "ack" (Some "") sample_world in
     r.1 = Returned "Incident acknowledged and logged."
     ∧ files r.2 !! "logs/acknowledgments.log"
       = Some ("2025-12-06T10:15:30.123456: Incident acknowledged at 2025-12-06T10:15:30.123456"
               +:+ PyStr.LF)).
Proof. cbv zeta. split_and!; by vm_compute. Qed.

(** When the disk fills up while the line is written, the acknowledgment
    is confirmed and the log is left with a part of the line. *)
Example ack_on_full_disk :
  let r := process_voice_command full_disk sample_engine "ack" (Some "CVE-2025-55182")
             sample_world in
  r.1 = Returned "Incident acknowledged and logged."
  ∧ files r.2 !! "logs/acknowledgments.log" = Some "2025-12-06T10:15:30.123456:".
Proof. cbv zeta. split; by vm_compute. Qed.

(** ** The environment of the child *)

Lemma child_environment_timestamp vars cve_id now :
  child_environment vars cve_id now !! "TIMESTAMP" = Some now.
Proof. unfold child_environment. apply lookup_insert_eq. Qed.

Lemma child_environment_cve_id vars id now :
  id ≠ "" → child_environment vars (Some id) now !! "CVE_ID" = Some id.
Proof.
  intros Hid. unfold child_environment. destruct id as [| a id]; [done |]. simpl.
  rewrite lookup_insert_ne by done. apply lookup_insert_eq.
Qed.

Lemma child_environment_no_cve_id vars cve_id now :
  PyStr.truthy cve_id = false →
  child_environment vars cve_id now !! "CVE_ID" = vars !! "CVE_ID".
Proof.
  intros Hid. unfold child_environment. rewrite Hid. by rewrite lookup_insert_ne.
Qed.

Lemma child_environment_inherited vars cve_id now k :
  k ≠ "TIMESTAMP" → k ≠ "CVE_ID" →
  child_environment vars cve_id now !! k = vars !! k.
Proof.
  intros Hts Hcve. unfold child_environment. rewrite lookup_insert_ne by done.
  destruct (PyStr.truthy cve_id); [by rewrite lookup_insert_ne | done].
Qed.

(** C9, as the code has it.  Whenever [_execute_script] starts a child,
    the child's environment has [TIMESTAMP] set to the time read just
    before, [CVE_ID] set to the correlation id when that id is a
    non-empty string and otherwise left as the parent has it (set or
    not), and every other variable as in the parent; the object
    [os.environ] of the parent holds the same variables after the call as
    before. *)
Theorem child_environment_is_augmented_copy (O : oracle) (script_path command_name : string)
    (cve_id : option string) (w : world) (vars : gmap string string) :
  heap w !! os_environ = Some (PyEnviron vars) →
  ∃ r w' evs,
    _execute_script O script_path command_name cve_id w = (r, w')
    ∧ trace w' = trace w ++ evs
    ∧ heap w' !! os_environ = Some (PyEnviron vars)
    ∧ ∀ argv0 env timeout answer,
        EvRun argv0 env timeout answer ∈ evs →
        ∃ now, EvNow now ∈ evs
               ∧ argv0 = script_path
               ∧ env !! "TIMESTAMP" = Some now
               ∧ (∀ id, cve_id = Some id → id ≠ "" → env !! "CVE_ID" = Some id)
               ∧ (PyStr.truthy cve_id = false → env !! "CVE_ID" = vars !! "CVE_ID")
               ∧ (∀ k, k ≠ "TIMESTAMP" → k ≠ "CVE_ID" → env !! k = vars !! k).
Proof.
  intros Hvars.
  pose proof (_execute_script_run O script_path command_name cve_id w) as Hrun.
  destruct (_execute_script O script_path command_name cve_id w) as [r w'].
  simpl in Hrun. exists r, w'.
  destruct Hrun as [Hex | Hex Hacc | e Hex Hacc | msg Hex Hacc Hno
                    | vars' now answer Hex Hacc Hvars' Hnow Hanswer];
    eexists; (split_and!; [reflexivity | reflexivity | simpl | ]);
    try exact Hvars;
    try (intros argv0 env timeout a Hev; event_cases Hev; done).
  - rewrite lookup_insert_ne; [done |]. apply fresh_ne. eauto.
  - assert (vars' = vars) as -> by congruence.
    intros argv0 env timeout a Hev.
    apply elem_of_cons in Hev as [Hev | Hev]; [discriminate |].
    apply elem_of_cons in Hev as [Hev | Hev]; [discriminate |].
    apply elem_of_cons in Hev as [Hev | Hev]; [discriminate |].
    apply list_elem_of_singleton in Hev. injection Hev as -> -> -> ->.
    exists now. split_and!.
    + set_solver.
    + done.
    + apply child_environment_timestamp.
    + intros id -> Hid. by apply child_environment_cve_id.
    + apply child_environment_no_cve_id.
    + apply child_environment_inherited.
Qed.

Lemma child_environment_is_augmented_copy_sample :
  heap sample_world !! os_environ = Some (PyEnviron ∅)
  ∧ ∃ r w' evs,
      _execute_script (calm 0 "") "scripts/isolate.sh" "quarantine servers"
                      (Some "CVE-2025-55182") sample_world = (r, w')
      ∧ trace w' = trace sample_world ++ evs
      ∧ heap w' !! os_environ = Some (PyEnviron ∅)
      ∧ ∀ argv0 env timeout answer,
          EvRun argv0 env timeout answer ∈ evs →
          ∃ now, EvNow now ∈ evs
                 ∧ argv0 = "scripts/isolate.sh"
                 ∧ env !! "TIMESTAMP" = Some now
                 ∧ (∀ id, Some "CVE-2025-55182" = Some id → id ≠ "" → env !! "CVE_ID" = Some id)
                 ∧ (PyStr.truthy (Some "CVE-2025-55182") = false →
                    env !! "CVE_ID" = (∅ : gmap string string) !! "CVE_ID")
                 ∧ (∀ k, k ≠ "TIMESTAMP" → k ≠ "CVE_ID" →
                    env !! k = (∅ : gmap string string) !! k).
Proof.
  assert (H : heap sample_world !! os_environ = Some (PyEnviron ∅)) by by vm_compute.
  split; [exact H |].
  exact (child_environment_is_augmented_copy (calm 0 "") "scripts/isolate.sh"
           "quarantine servers" (Some "CVE-2025-55182") sample_world ∅ H).
Defined.

(** C9 as worded does not hold: with no correlation id the child is
    started without any [CVE_ID], or with the one the parent happens to
    have. *)
Lemma child_without_cve_id :
  (let r := process_voice_command (calm 0 "") sample_engine "status report" None sample_world in
   r.1 = Returned "status report completed successfully."
   ∧ last (trace r.2)
     = Some (EvRun "scripts/status_check.sh"
               (child_environment ∅ None "2025-12-06T10:15:30.123456") 300
               (Returned (CompletedProcess 0 "" "")))
   ∧ child_environment ∅ None "2025-12-06T10:15:30.123456" !! "CVE_ID" = None)
  ∧ (let parent := {[ "CVE_ID" := "CVE-2024-0001" ]} : gmap string string in
     let r := _execute_script (calm 0 "") "scripts/status_check.sh" "status report" None
                (initial_world parent) in
     last (trace r.2)
     = Some (EvRun "scripts/status_check.sh"
               (child_environment parent None "2025-12-06T10:15:30.123456") 300
               (Returned (CompletedProcess 0 "" "")))
     ∧ child_environment parent None "2025-12-06T10:15:30.123456" !! "CVE_ID"
       = Some "CVE-2024-0001").
Proof. cbv zeta. split_and!; by vm_compute. Qed.

(** ** The audit history *)

Section history_facts.
Context {N : PyStr.Text} (O : oracle).

(** Executing a command leaves every object of the store as it was;
    at most a new environment block is added. *)
Lemma _execute_command_keeps_objects c original_text cve w l :
  is_Some (heap w !! l) →
  heap (_execute_command O c original_text cve w).2 !! l = heap w !! l.
Proof.
  intros Hl. destruct (decide (trigger c = builtin_trigger)) as [Ht | Ht].
  - destruct (_execute_command_builtin O c original_text cve w Ht) as (r & w' & Hrun & ->).
    by destruct Hrun.
  - destruct (PyStr.truthy (cfg_script c)) eqn:Hs.
    + destruct (cfg_script c) as [[| a p] |] eqn:Hp; try discriminate Hs.
      destruct (_execute_command_script O c original_text cve w (String a p) Ht Hp)
        as (r & w' & Hrun & ->); [done |].
      destruct Hrun; simpl; try done.
      rewrite lookup_insert_ne; [done |]. by apply fresh_ne.
    + by rewrite (_execute_command_no_action O c original_text cve w Ht Hs).
Qed.

Lemma process_voice_command_history self command_text cve w items :
  heap w !! command_history self = Some (PyList items) →
  let w' := (process_voice_command O self command_text cve w).2 in
  let l := fresh (dom (heap w)) in
  heap w' !! command_history self = Some (PyList (items ++ [l]))
  ∧ heap w' !! l
    = Some (PyLogEntry (LogEntry (clock_now O (trace w))
                                  (PyStr.strip (PyStr.lower command_text)) cve "voice_command"))
  ∧ ∀ l', l' ≠ command_history self → is_Some (heap w !! l') → heap w' !! l' = heap w !! l'.
Proof.
  intros Hh. cbv zeta. unfold process_voice_command, bind.
  rewrite (_log_command_run O _ _ _ _ items Hh). cbv zeta.
  set (l := fresh (dom (heap w))).
  set (entry := PyLogEntry _).
  set (w1 := World _ _ _).
  assert (Hl : l ≠ command_history self) by (apply fresh_ne; eauto).
  assert (H1h : heap w1 !! command_history self = Some (PyList (items ++ [l])))
    by apply lookup_insert_eq.
  assert (H1l : heap w1 !! l = Some entry).
  { unfold w1. simpl. rewrite lookup_insert_ne by done. apply lookup_insert_eq. }
  assert (H1o : ∀ l', l' ≠ command_history self → is_Some (heap w !! l') →
                      heap w1 !! l' = heap w !! l').
  { intros l' Hne Hsome. unfold w1. simpl. rewrite lookup_insert_ne by done.
    rewrite lookup_insert_ne; [done |]. by apply fresh_ne. }
  unfold of_outcome.
  destruct (_match_command (command_whitelist self) _) as [[c |] | e]; simpl;
    [| by split_and! ..].
  split_and!.
  - rewrite _execute_command_keeps_objects; [done | by rewrite H1h].
  - rewrite _execute_command_keeps_objects; [done | by rewrite H1l].
  - intros l' Hne Hsome.
    rewrite _execute_command_keeps_objects; [by apply H1o | by rewrite H1o].
Qed.

Lemma get_command_history_run self w items :
  heap w !! command_history self = Some (PyList items) →
  get_command_history self w
  = (Returned (fresh (dom (heap w))),
     World (<[fresh (dom (heap w)) := PyList items]> (heap w)) (files w) (trace w)).
Proof.
  intros Hh. unfold get_command_history, list_copy, load_list, load, alloc, bind, ret.
  by rewrite Hh.
Qed.
End history_facts.

Lemma perform_all_cons {N : PyStr.Text} (O : oracle) (st : engine * world) (c : call)
    (calls : list call) :
  perform_all O st (c :: calls) = perform_all O (perform O st c) calls.
Proof. reflexivity. Qed.

Lemma perform_all_history {N : PyStr.Text} (O : oracle) (calls : list call) :
  ∀ self w items,
    heap w !! command_history self = Some (PyList items) →
    command_history (perform_all O (self, w) calls).1 = command_history self
    ∧ (∃ added,
          heap (perform_all O (self, w) calls).2 !! command_history self
            = Some (PyList (items ++ added))
          ∧ length added = length (filter is_process calls))
    ∧ ∀ l, l ≠ command_history self → is_Some (heap w !! l) →
           heap (perform_all O (self, w) calls).2 !! l = heap w !! l.
Proof.
  induction calls as [| c calls IH]; intros self w items Hh.
  - simpl. split_and!; [done | | done]. exists []. by rewrite app_nil_r.
  - rewrite perform_all_cons.
    destruct c as [command_text cve_id | trigger script_path description |];
      unfold perform; cbn [fst snd].
    + destruct (process_voice_command_history O self command_text cve_id w items Hh)
        as (H1 & H2 & H3).
      destruct (IH self _ _ H1) as (Ha & (added & Hb & Hlen) & Hc).
      split_and!; [done | |].
      * exists (fresh (dom (heap w)) :: added). split.
        -- by rewrite Hb, <- app_assoc.
        -- simpl. by rewrite Hlen.
      * intros l Hne Hsome. rewrite Hc; [by apply H3 | done |]. by rewrite H3.
    + destruct (IH (add_custom_command self trigger script_path description) w items Hh)
        as (Ha & (added & Hb & Hlen) & Hc).
      split_and!; [done | by exists added | done].
    + rewrite (get_command_history_run self w items Hh). simpl.
      set (l := fresh (dom (heap w))).
      assert (Hl : l ≠ command_history self) by (apply fresh_ne; eauto).
      assert (H1 : <[l := PyList items]> (heap w) !! command_history self
                   = Some (PyList items)) by by rewrite lookup_insert_ne.
      destruct (IH self (World (<[l := PyList items]> (heap w)) (files w) (trace w)) items H1)
        as (Ha & (added & Hb & Hlen) & Hc).
      split_and!; [done | by exists added |].
      intros l' Hne Hsome.
      assert (l ≠ l') by by apply fresh_ne.
      rewrite Hc; simpl; [by rewrite lookup_insert_ne | done | by rewrite lookup_insert_ne].
Qed.

(** Every call keeps the invariant of the engine. *)
Lemma engine_ok_perform {N : PyStr.Text} (O : oracle) (st : engine * world) (c : call) :
  engine_ok st.1 st.2 → engine_ok (perform O st c).1 (perform O st c).2.
Proof.
  destruct st as [self w]. simpl. intros [[[items Hh] [vars Hv]] Hwl].
  assert (Hne : os_environ ≠ command_history self) by congruence.
  destruct c as [command_text cve_id | trigger script_path description |]; simpl.
  - destruct (process_voice_command_history O self command_text cve_id w items Hh)
      as (H1 & _ & H3).
    split; [split |]; [eauto | | done].
    exists vars. rewrite H3; [done | done | eauto].
  - split; [split; eauto |]. by apply add_to_whitelist_ok.
  - rewrite (get_command_history_run self w items Hh). simpl.
    split; [split |]; [exists items | exists vars | done];
      (cbn [heap command_history fst snd]; rewrite lookup_insert_ne;
       [done | apply fresh_ne; eauto]).
Qed.

Lemma engine_ok_perform_all {N : PyStr.Text} (O : oracle) (calls : list call) :
  ∀ st, engine_ok st.1 st.2 →
        engine_ok (perform_all O st calls).1 (perform_all O st calls).2.
Proof.
  induction calls as [| c calls IH]; intros st Hok; [done |].
  rewrite perform_all_cons. by apply IH, engine_ok_perform.
Qed.

(** C6.  On an engine whose history is a list, one call of
    [process_voice_command] leaves the history as it was with exactly one
    reference added at the end, to a new entry that holds the time, the
    lower-cased and trimmed text, the correlation id and the source; this
    holds for every whitelist and every outside, so also when nothing
    matches or the lookup of a fuzzy target raises, since the entry is
    added before the matcher runs.  Over any sequence of calls of the
    engine the history only grows at the end, by one reference for each
    [process_voice_command], and every object that was in the store,
    every earlier entry among them, is unchanged. *)
Theorem history_is_append_only {N : PyStr.Text} (O : oracle) (self : engine) (w : world)
    (items : list loc) :
  heap w !! command_history self = Some (PyList items) →
  (∀ command_text cve_id,
      let w' := (process_voice_command O self command_text cve_id w).2 in
      ∃ l, heap w !! l = None
           ∧ history_items self w' = Some (items ++ [l])
           ∧ heap w' !! l
             = Some (PyLogEntry (LogEntry (clock_now O (trace w))
                                           (PyStr.strip (PyStr.lower command_text))
                                           cve_id "voice_command")))
  ∧ (∀ calls,
      let st := perform_all O (self, w) calls in
      command_history st.1 = command_history self
      ∧ (∃ added, history_items st.1 st.2 = Some (items ++ added)
                  ∧ length added = length (filter is_process calls))
      ∧ ∀ l, l ≠ command_history self → is_Some (heap w !! l) →
             heap st.2 !! l = heap w !! l).
Proof.
  intros Hh. split.
  - intros command_text cve_id. cbv zeta.
    destruct (process_voice_command_history O self command_text cve_id w items Hh)
      as (H1 & H2 & _).
    exists (fresh (dom (heap w))). split_and!; [apply fresh_unused | | done].
    unfold history_items. by rewrite H1.
  - intros calls. cbv zeta.
    destruct (perform_all_history O calls self w items Hh) as (Ha & (added & Hb & Hlen) & Hc).
    split_and!; [done | | done].
    exists added. split; [| done]. unfold history_items. by rewrite Ha, Hb.
Qed.

Lemma history_is_append_only_unmatched :
  heap sample_world !! command_history sample_engine = Some (PyList [])
  ∧ ∃ l, heap sample_world !! l = None
         ∧ history_items sample_engine
             (process_voice_command no_scripts sample_engine "  XYZZY " None sample_world).2
           = Some ([] ++ [l])
         ∧ heap (process_voice_command no_scripts sample_engine "  XYZZY " None sample_world).2
             !! l
           = Some (PyLogEntry (LogEntry (clock_now no_scripts (trace sample_world))
                                         (PyStr.strip (PyStr.lower "  XYZZY "))
                                         None "voice_command")).
Proof.
  assert (H : heap sample_world !! command_history sample_engine = Some (PyList []))
    by by vm_compute.
  split; [exact H |].
  exact (proj1 (history_is_append_only no_scripts sample_engine sample_world [] H)
               "  XYZZY " None).
Defined.

(** ** The list handed out by [get_command_history] *)

Lemma list_mutate_all_other (l : loc) (changes : list (list loc → list loc)) :
  ∀ w l', l' ≠ l → heap (list_mutate_all l changes w).2 !! l' = heap w !! l'.
Proof.
  induction changes as [| change rest IH]; intros w l' Hne; [done |].
  simpl. unfold bind, list_mutate, load_list, load, store, bind, ret, raise.
  destruct (heap w !! l) as [[items | entry | vars] |]; simpl; try done.
  rewrite IH by done. simpl. by rewrite lookup_insert_ne.
Qed.

(** C10.  [get_command_history] returns a reference to a list that did
    not exist before and is not the engine's own, holding the references
    the history holds.  However the caller then changes that list in
    place (appending, removing, reordering, clearing), the engine's
    history holds what it held; a further [get_command_history] returns
    those references again, and a further [process_voice_command] adds
    its entry to them. *)
Theorem get_command_history_returns_copy {N : PyStr.Text} (O : oracle) (self : engine) (w : world)
    (items : list loc) :
  heap w !! command_history self = Some (PyList items) →
  ∃ l w1,
    get_command_history self w = (Returned l, w1)
    ∧ l ≠ command_history self
    ∧ heap w !! l = None
    ∧ heap w1 !! l = Some (PyList items)
    ∧ ∀ changes,
        let w2 := (list_mutate_all l changes w1).2 in
        heap w2 !! command_history self = Some (PyList items)
        ∧ (∃ l2 w3, get_command_history self w2 = (Returned l2, w3)
                    ∧ heap w3 !! l2 = Some (PyList items))
        ∧ (∀ command_text cve_id,
             ∃ entry,
               history_items self (process_voice_command O self command_text cve_id w2).2
               = Some (items ++ [entry])).
Proof.
  intros Hh. do 2 eexists. split; [by apply get_command_history_run |].
  set (l := fresh (dom (heap w))).
  assert (Hl : l ≠ command_history self) by (apply fresh_ne; eauto).
  split_and!; [done | apply fresh_unused | apply lookup_insert_eq |].
  intros changes. cbv zeta.
  set (w2 := (list_mutate_all l changes _).2).
  assert (H2 : heap w2 !! command_history self = Some (PyList items)).
  { unfold w2. rewrite list_mutate_all_other by done. simpl.
    by rewrite lookup_insert_ne. }
  split_and!; [done | |].
  - do 2 eexists. split; [by apply get_command_history_run |]. apply lookup_insert_eq.
  - intros command_text cve_id.
    destruct (process_voice_command_history O self command_text cve_id w2 items H2)
      as (H3 & _).
    eexists. unfold history_items. by rewrite H3.
Qed.

Lemma get_command_history_returns_copy_sample :
  heap sample_world !! command_history sample_engine = Some (PyList [])
  ∧ ∃ l w1,
      get_command_history sample_engine sample_world = (Returned l, w1)
      ∧ l ≠ command_history sample_engine
      ∧ heap sample_world !! l = None
      ∧ heap w1 !! l = Some (PyList [])
      ∧ ∀ changes,
          let w2 := (list_mutate_all l changes w1).2 in
          heap w2 !! command_history sample_engine = Some (PyList [])
          ∧ (∃ l2 w3, get_command_history sample_engine w2 = (Returned l2, w3)
                      ∧ heap w3 !! l2 = Some (PyList []))
          ∧ (∀ command_text cve_id,
               ∃ entry,
                 history_items sample_engine
                   (process_voice_command (calm 0 "") sample_engine command_text cve_id w2).2
                 = Some ([] ++ [entry])).
Proof.
  assert (H : heap sample_world !! command_history sample_engine = Some (PyList []))
    by by vm_compute.
  split; [exact H |].
  exact (get_command_history_returns_copy (calm 0 "") sample_engine sample_world [] H).
Defined.

(** One command, then the caller appends to, reverses and clears the
    list it was given: the engine still holds its one entry. *)
Example caller_changes_do_not_reach_history :
  let w1 := (process_voice_command (calm 0 "") sample_engine "status report" None
               sample_world).2 in
  let '(r, w2) := get_command_history sample_engine w1 in
  match r with
  | Returned l =>
      history_items sample_engine w1 = Some [3%positive]
      ∧ heap (list_mutate_all l [py_append 1%positive; py_reverse; py_pop; py_clear] w2).2 !! l
        = Some (PyList [])
      ∧ history_items sample_engine
          (list_mutate_all l [py_append 1%positive; py_reverse; py_pop; py_clear] w2).2
        = Some [3%positive]
  | Raised _ => False
  end.
Proof. vm_compute. split_and!; reflexivity. Qed.

(** * Further properties of the engine and of its callers *)

(** ** More on the matcher *)

Lemma get_Some_elem {V : Type} (d : PyDict.dict V) (k : string) (v : V) :
  PyDict.get d k = Some v → (k, v) ∈ d.
Proof.
  induction d as [| [k' v'] d IH]; simpl; [done |].
  case_decide as Hk.
  - intros [= ->]. subst. by left.
  - intros Hget. right. by apply IH.
Qed.

Lemma direct_match_entry whitelist command_text m :
  direct_match whitelist command_text = Some m →
  ∃ e, (trigger m, e) ∈ whitelist ∧ m = with_trigger (trigger m) e
       ∧ PyStr.str_in (trigger m) command_text = true.
Proof.
  induction whitelist as [| [t c] wl IH]; simpl; [done |].
  destruct (PyStr.str_in t command_text) eqn:Ht.
  - intros [= <-]. exists c. simpl. split_and!; [by left | done | done].
  - intros (e & Hin & Heq & Hocc)%IH. exists e. split_and!; [by right | done | done].
Qed.

Lemma fuzzy_match_entry table whitelist command_text m :
  fuzzy_match table whitelist command_text = Returned (Some m) →
  ∃ k e, (k, trigger m) ∈ table ∧ PyStr.str_in k command_text = true
         ∧ (trigger m, e) ∈ whitelist ∧ m = with_trigger (trigger m) e.
Proof.
  induction table as [| [k t] table IH]; simpl; [done |].
  destruct (PyStr.str_in k command_text) eqn:Hk.
  - destruct (PyDict.get whitelist t) as [e |] eqn:He; [| done].
    intros [= <-]. exists k, e. simpl.
    split_and!; [by left | done | by apply get_Some_elem | done].
  - intros (k' & e & Hin & Hocc & Hw & Heq)%IH. exists k', e.
    split_and!; [by right | done..].
Qed.

Lemma fuzzy_match_None_inv table whitelist command_text :
  fuzzy_match table whitelist command_text = Returned None →
  occurs_nowhere command_text (PyDict.keys table).
Proof.
  induction table as [| [k t] table IH]; simpl; [intros _; constructor |].
  destruct (PyStr.str_in k command_text) eqn:Hk.
  - by destruct (PyDict.get whitelist t).
  - intros Hrest. constructor; [done | by apply IH].
Qed.

Lemma fuzzy_match_Raised table whitelist command_text e :
  fuzzy_match table whitelist command_text = Raised e →
  ∃ k t, e = KeyError t ∧ (k, t) ∈ table ∧ PyStr.str_in k command_text = true
         ∧ t ∉ PyDict.keys whitelist.
Proof.
  induction table as [| [k t] table IH]; simpl; [done |].
  destruct (PyStr.str_in k command_text) eqn:Hk.
  - destruct (PyDict.get whitelist t) as [c |] eqn:Hc; [done |].
    intros [= <-]. exists k, t.
    split_and!; [done | by left | done | by apply PyDictFacts.get_None_keys].
  - intros (k' & t' & Heq & Hin & Hocc & Hnot)%IH. exists k', t'.
    split_and!; [done | by right | done | done].
Qed.

Lemma occurs_nowhere_intro command_text keys :
  (∀ k, k ∈ keys → PyStr.str_in k command_text = false) →
  occurs_nowhere command_text keys.
Proof. unfold occurs_nowhere. by rewrite Forall_forall. Qed.

(** What the matcher returns is an entry of the whitelist under its own
    trigger, and the text gives a reason for it: the trigger occurs in
    the text, or no trigger does and a keyword that the fuzzy table maps
    to the trigger occurs in it. *)
Theorem match_is_sound (whitelist : PyDict.dict command_entry) (command_text : string)
    (m : command_config) :
  _match_command whitelist command_text = Returned (Some m) →
  (∃ e, (trigger m, e) ∈ whitelist ∧ m = with_trigger (trigger m) e)
  ∧ (PyStr.str_in (trigger m) command_text = true
     ∨ (occurs_nowhere command_text (PyDict.keys whitelist)
        ∧ ∃ k, (k, trigger m) ∈ fuzzy_matches ∧ PyStr.str_in k command_text = true)).
Proof.
  unfold _match_command.
  destruct (direct_match whitelist command_text) as [m' |] eqn:Hd.
  - intros [= ->]. destruct (direct_match_entry _ _ _ Hd) as (e & Hin & Heq & Hocc).
    split; [by exists e | by left].
  - intros (k & e & Hin & Hocc & Hw & Heq)%fuzzy_match_entry.
    split; [by exists e |]. right. split; [| by exists k].
    apply occurs_nowhere_intro. by apply direct_match_None.
Qed.

Lemma match_is_sound_isolate :
  _match_command default_whitelist "isolate the web tier"
    = Returned (Some (CommandConfig "quarantine servers" (Some "scripts/isolate.sh")
                        "Isolate affected systems" true))
  ∧ ∃ k, (k, "quarantine servers") ∈ fuzzy_matches
         ∧ PyStr.str_in k "isolate the web tier" = true.
Proof.
  assert (H : _match_command default_whitelist "isolate the web tier"
              = Returned (Some (CommandConfig "quarantine servers" (Some "scripts/isolate.sh")
                                  "Isolate affected systems" true))) by reflexivity.
  split; [exact H |].
  destruct (proj2 (match_is_sound default_whitelist "isolate the web tier" _ H))
    as [Hocc | [_ Hk]]; [discriminate Hocc | exact Hk].
Defined.

(** The matcher answers [None] exactly when no trigger and no fuzzy
    keyword occurs in the text.  It raises only a [KeyError], for a
    trigger of the fuzzy table that is no key of the whitelist, reached
    through a keyword that occurs in a text without any trigger; on a
    whitelist that holds all fuzzy targets it never raises. *)
Theorem match_none_iff_nothing_occurs (whitelist : PyDict.dict command_entry)
    (command_text : string) :
  (_match_command whitelist command_text = Returned None
   ↔ occurs_nowhere command_text (PyDict.keys whitelist)
     ∧ occurs_nowhere command_text (PyDict.keys fuzzy_matches))
  ∧ (∀ e, _match_command whitelist command_text = Raised e →
          occurs_nowhere command_text (PyDict.keys whitelist)
          ∧ ∃ k t, e = KeyError t ∧ (k, t) ∈ fuzzy_matches
                   ∧ PyStr.str_in k command_text = true
                   ∧ t ∉ PyDict.keys whitelist)
  ∧ (whitelist_ok whitelist → ∀ e, _match_command whitelist command_text ≠ Raised e).
Proof.
  split_and!.
  - unfold _match_command. split.
    + destruct (direct_match whitelist command_text) eqn:Hd; [done |].
      intros Hf. split.
      * apply occurs_nowhere_intro. by apply direct_match_None.
      * by eapply fuzzy_match_None_inv.
    + intros [Hw Hf].
      rewrite (proj2 (direct_match_None _ _) (occurs_nowhere_elem _ _ Hw)).
      by apply fuzzy_match_None, occurs_nowhere_elem.
  - intros e. unfold _match_command.
    destruct (direct_match whitelist command_text) eqn:Hd; [done |].
    intros Hf. split.
    + apply occurs_nowhere_intro. by apply direct_match_None.
    + by apply fuzzy_match_Raised.
  - intros Hok e He. destruct (_match_command_returns whitelist command_text Hok) as [r Hr].
    congruence.
Qed.

Lemma match_none_iff_nothing_occurs_default :
  whitelist_ok default_whitelist
  ∧ ∀ e, _match_command default_whitelist "report" ≠ Raised e.
Proof.
  split; [exact default_whitelist_ok |].
  exact (proj2 (proj2 (match_none_iff_nothing_occurs default_whitelist "report"))
               default_whitelist_ok).
Defined.

(** A keyword of the fuzzy table whose trigger was never registered: the
    lookup raises. *)
Example fuzzy_target_missing :
  _match_command [("start patching", CommandEntry (Some "scripts/patch_r2s.sh") "Patch" false)]
                 "status"
  = Raised (KeyError "status report").
Proof. reflexivity. Qed.

(** ** More on registration *)

Lemma set_absent_app {V : Type} (d : PyDict.dict V) (k : string) (v : V) :
  k ∉ PyDict.keys d → PyDict.set d k v = d ++ [(k, v)].
Proof.
  induction d as [| [k' v'] d IH]; simpl; [done |].
  rewrite not_elem_of_cons. intros [Hne Hnin].
  rewrite decide_False by done. by rewrite IH.
Qed.

Lemma direct_match_app before after command_text :
  direct_match (before ++ after) command_text
  = match direct_match before command_text with
    | Some m => Some m
    | None => direct_match after command_text
    end.
Proof.
  induction before as [| [t c] before IH]; simpl; [done |].
  by destruct (PyStr.str_in t command_text).
Qed.

Lemma default_whitelist_shape {N : PyStr.Text} {L : PyStr.Lawful N} :
  whitelist_shape default_whitelist.
Proof.
  split_and!.
  - by apply (bool_decide_unpack _).
  - simpl. repeat constructor; by rewrite PyStr.law_lower_ascii.
  - done.
Qed.

Lemma add_to_whitelist_shape {N : PyStr.Text}
    {L : PyStr.Lawful N} whitelist trigger script_path description :
  whitelist_shape whitelist →
  whitelist_shape (add_to_whitelist whitelist trigger script_path description).
Proof.
  intros (Hnd & Hlow & Hpre). unfold add_to_whitelist.
  split_and!; [by apply PyDictFacts.keys_set_NoDup | |].
  - destruct (decide (PyStr.lower trigger ∈ PyDict.keys whitelist)) as [Hin | Hin].
    + by rewrite PyDictFacts.keys_set_present.
    + rewrite PyDictFacts.keys_set_absent by done. apply Forall_app. split; [done |].
      constructor; [apply PyStr.law_lower_idem | constructor].
  - destruct (decide (PyStr.lower trigger ∈ PyDict.keys whitelist)) as [Hin | Hin].
    + by rewrite PyDictFacts.keys_set_present.
    + rewrite PyDictFacts.keys_set_absent by done. by apply prefix_app_r.
Qed.

(** The whitelist of an engine keeps its shape through every sequence
    of calls: the keys stay distinct and lower-case, and the five default
    triggers stay the first five keys, in their order; nothing removes or
    moves them.  The whitelist [__init__] builds has that shape. *)
Theorem whitelist_shape_is_kept {N : PyStr.Text} {L : PyStr.Lawful N} (O : oracle)
    (calls : list call) (self : engine)
    (w : world) :
  whitelist_shape (command_whitelist self) →
  whitelist_shape (command_whitelist (perform_all O (self, w) calls).1).
Proof.
  revert self w. induction calls as [| c calls IH]; intros self w Hshape; [done |].
  rewrite perform_all_cons.
  destruct c as [command_text cve_id | trigger script_path description |];
    unfold perform; cbn [fst snd]; apply IH; [done | | done].
  by apply add_to_whitelist_shape.
Qed.

Lemma whitelist_shape_is_kept_sample :
  whitelist_shape (command_whitelist sample_engine)
  ∧ whitelist_shape
      (command_whitelist
         (perform_all (calm 0 "") (sample_engine, sample_world)
            [CallAddCustom "Rotate Keys" "scripts/rotate.sh" "Rotate credentials";
             CallProcess "rotate keys" None;
             CallAddCustom "START PATCHING" "scripts/patch_v2.sh" "Patch, second version"]).1).
Proof.
  split; [exact default_whitelist_shape |].
  exact (whitelist_shape_is_kept (calm 0 "") _ sample_engine sample_world
           default_whitelist_shape).
Defined.

(** Registering a trigger that is new, after lower-casing, disturbs no
    direct match there was, and a text that contains the new trigger and
    none of the older ones resolves to the new entry, which carries the
    script, the description and the confirmation flag set. *)
Theorem new_trigger_is_matched_last {N : PyStr.Text} (whitelist : PyDict.dict command_entry)
    (trigger script_path description command_text : string) :
  PyStr.lower trigger ∉ PyDict.keys whitelist →
  (∀ m, direct_match whitelist command_text = Some m →
        _match_command (add_to_whitelist whitelist trigger script_path description) command_text
        = Returned (Some m))
  ∧ (occurs_nowhere command_text (PyDict.keys whitelist) →
     PyStr.str_in (PyStr.lower trigger) command_text = true →
     _match_command (add_to_whitelist whitelist trigger script_path description) command_text
     = Returned (Some (CommandConfig (PyStr.lower trigger) (Some script_path) description true))).
Proof.
  intros Hnew. unfold add_to_whitelist, _match_command.
  rewrite set_absent_app by done. rewrite direct_match_app. split.
  - by intros m ->.
  - intros Hold Hocc.
    rewrite (proj2 (direct_match_None _ _) (occurs_nowhere_elem _ _ Hold)).
    simpl. by rewrite Hocc.
Qed.

Lemma new_trigger_is_matched_last_rotate :
  (PyStr.lower "Rotate Keys" ∉ PyDict.keys default_whitelist)
  ∧ _match_command
      (add_to_whitelist default_whitelist "Rotate Keys" "scripts/rotate.sh" "Rotate credentials")
      "please rotate keys"
    = Returned (Some (CommandConfig "rotate keys" (Some "scripts/rotate.sh")
                        "Rotate credentials" true)).
Proof.
  assert (H : PyStr.lower "Rotate Keys" ∉ PyDict.keys default_whitelist)
    by by apply (bool_decide_unpack _).
  split; [exact H |].
  refine (proj2 (new_trigger_is_matched_last default_whitelist "Rotate Keys"
                   "scripts/rotate.sh" "Rotate credentials" "please rotate keys" H) _ eq_refl).
  repeat constructor.
Defined.

(** ** Blank input and the empty trigger *)

Lemma blank_occurs_nowhere (keys : list string) :
  "" ∉ keys → occurs_nowhere "" keys.
Proof.
  intros Hnot. apply occurs_nowhere_intro. intros k Hk.
  apply PyStrNorm.str_in_empty_text. by intros ->.
Qed.

(** An input that is empty or holds only white space is answered with
    the help response, as long as the empty string is no trigger. *)
Theorem blank_input_gets_help {N : PyStr.Text} (O : oracle) (self : engine) (w : world)
    (command_text : string) (cve_id : option string) :
  store_ok self w →
  PyStr.strip (PyStr.lower command_text) = "" →
  "" ∉ PyDict.keys (command_whitelist self) →
  run_in (process_voice_command O self command_text cve_id) w
  = Returned (_get_help_response (command_whitelist self)).
Proof.
  intros [[items Hh] _] Hblank Hkeys.
  unfold run_in, process_voice_command, bind.
  rewrite (_log_command_run O _ _ _ _ items Hh). cbv zeta.
  rewrite Hblank. unfold _match_command, of_outcome.
  rewrite (proj2 (direct_match_None _ _)
             (occurs_nowhere_elem _ _ (blank_occurs_nowhere _ Hkeys))).
  rewrite (fuzzy_match_None fuzzy_matches); [done |].
  apply occurs_nowhere_elem, blank_occurs_nowhere. by apply (bool_decide_unpack _).
Qed.

Lemma blank_input_gets_help_spaces :
  store_ok sample_engine sample_world
  ∧ PyStr.strip (PyStr.lower "   ") = ""
  ∧ ("" ∉ PyDict.keys (command_whitelist sample_engine))
  ∧ run_in (process_voice_command no_scripts sample_engine "   " None) sample_world
    = Returned (_get_help_response default_whitelist).
Proof.
  assert (H1 : store_ok sample_engine sample_world) by apply sample_ok.
  assert (H3 : "" ∉ PyDict.keys (command_whitelist sample_engine)) by by apply (bool_decide_unpack _).
  split_and!; [exact H1 | reflexivity | exact H3 |].
  exact (blank_input_gets_help no_scripts sample_engine sample_world "   " None
           H1 eq_refl H3).
Defined.

Lemma str_in_empty_trigger (s : string) : PyStr.str_in "" s = true.
Proof. by destruct s. Qed.

(** Once the empty string is a trigger every text resolves to an entry
    by direct match: the fuzzy table and the help response are out of
    reach. *)
Theorem empty_trigger_matches_everything (whitelist : PyDict.dict command_entry)
    (command_text : string) :
  "" ∈ PyDict.keys whitelist →
  ∃ m, _match_command whitelist command_text = Returned (Some m)
       ∧ PyStr.str_in (trigger m) command_text = true.
Proof.
  intros Hin. unfold _match_command.
  destruct (direct_match whitelist command_text) as [m |] eqn:Hd.
  - exists m. split; [done |]. by destruct (direct_match_entry _ _ _ Hd) as (e & _ & _ & Hocc).
  - exfalso. pose proof (proj1 (direct_match_None _ _) Hd "" Hin) as Hno.
    by rewrite str_in_empty_trigger in Hno.
Qed.

Lemma empty_trigger_matches_everything_xyzzy :
  let whitelist := add_to_whitelist default_whitelist "" "scripts/any.sh" "Anything" in
  "" ∈ PyDict.keys whitelist
  ∧ ∃ m, _match_command whitelist "xyzzy" = Returned (Some m)
         ∧ PyStr.str_in (trigger m) "xyzzy" = true.
Proof.
  cbv zeta.
  assert (H : "" ∈ PyDict.keys (add_to_whitelist default_whitelist "" "scripts/any.sh" "Anything"))
    by by apply (bool_decide_unpack _).
  split; [exact H |].
  exact (empty_trigger_matches_everything _ "xyzzy" H).
Defined.

(** ** What a command may do to the outside *)

Lemma _match_command_entry whitelist command_text m :
  _match_command whitelist command_text = Returned (Some m) →
  ∃ e, (trigger m, e) ∈ whitelist ∧ m = with_trigger (trigger m) e.
Proof.
  unfold _match_command.
  destruct (direct_match whitelist command_text) as [m' |] eqn:Hd.
  - intros [= ->]. destruct (direct_match_entry _ _ _ Hd) as (e & Hin & Heq & _). eauto.
  - intros (k & e & _ & _ & Hw & Heq)%fuzzy_match_entry. eauto.
Qed.

Lemma _log_command_trace (O : oracle) self command_text cve w :
  trace (_log_command O self command_text cve w).2
  = trace w ++ [EvNow (clock_now O (trace w))].
Proof.
  unfold _log_command, datetime_now_isoformat, ask, alloc, list_append, load_list, load,
    store, bind, ret, raise. simpl.
  destruct (<[_ := _]> (heap w) !! command_history self) as [[items | entry | vars] |];
    reflexivity.
Qed.

Lemma _execute_command_effects {N : PyStr.Text} (O : oracle) c original_text cve w :
  ∃ evs, trace (_execute_command O c original_text cve w).2 = trace w ++ evs
         ∧ command_effects c cve evs.
Proof.
  destruct (decide (trigger c = builtin_trigger)) as [Ht | Ht].
  - destruct (_execute_command_builtin O c original_text cve w Ht) as (r & w' & Hrun & ->).
    destruct Hrun; eexists; (split; [reflexivity |]); (split_and!; [simpl; lia | simpl; lia | |]);
      try (intros argv0 env timeout a Hev; event_cases Hev; done);
      intros file data a Hev; event_cases Hev;
      (split_and!; [done | done |]); eexists; (split; [| reflexivity]); set_solver.
  - destruct (PyStr.truthy (cfg_script c)) eqn:Hs.
    + destruct (cfg_script c) as [[| x p] |] eqn:Hp; try discriminate Hs.
      destruct (_execute_command_script O c original_text cve w (String x p) Ht Hp)
        as (r & w' & Hrun & ->); [done |].
      destruct Hrun; eexists; (split; [reflexivity |]);
        (split_and!; [simpl; lia | simpl; lia | |]);
        try (intros file data a Hev; event_cases Hev; done);
        intros argv0 env timeout a Hev; event_cases Hev.
      split_and!; [done | done | done | set_solver | set_solver].
    + rewrite (_execute_command_no_action O c original_text cve w Ht Hs).
      exists []. split; [by rewrite app_nil_r |].
      split_and!; [simpl; lia | simpl; lia | |]; intros; by apply elem_of_nil in H.
Qed.

(** One call of [process_voice_command] reads the clock for the history
    entry and then does nothing more to the outside, or what executing
    the command it matched does. *)
Lemma process_voice_command_effects {N : PyStr.Text} (O : oracle) self command_text cve w :
  ∃ evs, trace (process_voice_command O self command_text cve w).2
         = trace w ++ EvNow (clock_now O (trace w)) :: evs
         ∧ (evs = []
            ∨ ∃ m, _match_command (command_whitelist self)
                     (PyStr.strip (PyStr.lower command_text)) = Returned (Some m)
                   ∧ command_effects m cve evs).
Proof.
  unfold process_voice_command, bind.
  pose proof (_log_command_trace O self (PyStr.strip (PyStr.lower command_text)) cve w) as Hlog.
  destruct (_log_command O self _ cve w) as [[[] | e] w1]; simpl in Hlog.
  - unfold of_outcome.
    destruct (_match_command (command_whitelist self) _) as [[m |] | e] eqn:Hm.
    + destruct (_execute_command_effects O m (PyStr.strip (PyStr.lower command_text)) cve w1)
        as (evs & Htr & Heff).
      exists evs. split; [| right; by exists m].
      by rewrite Htr, Hlog, <- app_assoc.
    + exists []. simpl. split; [done | by left].
    + exists []. simpl. split; [done | by left].
  - exists []. simpl. split; [done | by left].
Qed.




(** Whatever is said, one call of [process_voice_command] starts at most
    one process; what it starts is the script of an entry of the
    whitelist whose trigger is not the acknowledgment one, run with the
    300 second limit, after the script was found to exist and to be
    executable. *)
Theorem only_whitelisted_scripts_run {N : PyStr.Text} (O : oracle) (self : engine) (w : world)
    (command_text : string) (cve_id : option string) :
  ∃ evs,
    trace (process_voice_command O self command_text cve_id w).2 = trace w ++ evs
    ∧ length (filter is_run evs) ≤ 1
    ∧ ∀ argv0 env timeout answer,
        EvRun argv0 env timeout answer ∈ evs →
        (∃ t e, (t, e) ∈ command_whitelist self ∧ script e = Some argv0
                ∧ t ≠ builtin_trigger)
        ∧ timeout = 300
        ∧ EvExists argv0 true ∈ evs
        ∧ EvAccess argv0 (Returned true) ∈ evs.
Proof.
  destruct (process_voice_command_effects O self command_text cve_id w)
    as (evs & Htr & [-> | (m & Hm & Hrun & _ & Hruns & _)]).
  - eexists. split; [exact Htr |]. split; [simpl; lia |].
    intros argv0 env timeout a Hev. event_cases Hev.
  - eexists. split; [exact Htr |]. split; [exact Hrun |].
    intros argv0 env timeout a Hev.
    apply elem_of_cons in Hev as [Hev | Hev]; [discriminate |].
    destruct (Hruns _ _ _ _ Hev) as (Hs & Ht & Htime & Hex & Hacc).
    destruct (_match_command_entry _ _ _ Hm) as (e & Hin & Heq).
    split_and!; [| done | by right | by right].
    exists (trigger m), e. split_and!; [done | | done].
    rewrite Heq in Hs. exact Hs.
Qed.


(** ** What the history holds *)

Lemma load_entries_app h (a b : list loc) :
  load_entries h (a ++ b)
  = match load_entries h a, load_entries h b with
    | Some x, Some y => Some (x ++ y)
    | _, _ => None
    end.
Proof.
  induction a as [| l a IH]; simpl.
  - by destruct (load_entries h b).
  - rewrite IH. destruct (load_entry h l); [| done].
    destruct (load_entries h a); [| done]. by destruct (load_entries h b).
Qed.

Lemma load_entries_ext h h' (items : list loc) :
  (∀ l, l ∈ items → h' !! l = h !! l) →
  load_entries h' items = load_entries h items.
Proof.
  induction items as [| l items IH]; intros Hsame; simpl; [done |].
  unfold load_entry. rewrite (Hsame l) by by left.
  rewrite IH; [done |]. intros l' Hin. apply Hsame. by right.
Qed.

Lemma load_entries_present h (items : list loc) entries :
  load_entries h items = Some entries →
  ∀ l, l ∈ items → ∃ entry, h !! l = Some (PyLogEntry entry).
Proof.
  revert entries. induction items as [| l0 items IH]; intros entries; simpl.
  - by intros _ l ?%elem_of_nil.
  - unfold load_entry at 1.
    destruct (h !! l0) as [[| entry |] |] eqn:Hl0; try done.
    destruct (load_entries h items) as [rest |] eqn:Hrest; [| done].
    intros _ l [-> | Hin]%elem_of_cons; [by exists entry | by eapply IH].
Qed.

Lemma history_entries_items self w entries :
  history_entries self w = Some entries →
  ∃ items, heap w !! command_history self = Some (PyList items)
           ∧ load_entries (heap w) items = Some entries.
Proof.
  unfold history_entries, history_items.
  destruct (heap w !! command_history self) as [[items | |] |]; try done.
  intros H. by exists items.
Qed.

Lemma history_entries_frame self w w' items entries :
  heap w !! command_history self = Some (PyList items) →
  load_entries (heap w) items = Some entries →
  heap w' !! command_history self = Some (PyList items) →
  (∀ l, l ≠ command_history self → is_Some (heap w !! l) → heap w' !! l = heap w !! l) →
  history_entries self w' = Some entries.
Proof.
  intros Hh Hload Hh' Hsame. unfold history_entries, history_items. rewrite Hh'.
  rewrite <- Hload. apply load_entries_ext. intros l Hin.
  destruct (load_entries_present _ _ _ Hload l Hin) as [entry Hl].
  apply Hsame; [congruence | by rewrite Hl].
Qed.

Lemma process_voice_command_entries {N : PyStr.Text} (O : oracle) self command_text cve w entries :
  history_entries self w = Some entries →
  history_entries self (process_voice_command O self command_text cve w).2
  = Some (entries ++ [LogEntry (clock_now O (trace w))
                               (PyStr.strip (PyStr.lower command_text)) cve "voice_command"]).
Proof.
  intros (items & Hh & Hload)%history_entries_items.
  destruct (process_voice_command_history O self command_text cve w items Hh)
    as (H1 & H2 & H3).
  unfold history_entries, history_items. rewrite H1, load_entries_app.
  rewrite (load_entries_ext (heap w)), Hload.
  - simpl. unfold load_entry. by rewrite H2.
  - intros l Hin. destruct (load_entries_present _ _ _ Hload l Hin) as [entry Hl].
    apply H3; [congruence | by rewrite Hl].
Qed.

(** The history is the record of the requests, in the order they came:
    after any sequence of calls it reads as it read before, followed by
    one entry for each [process_voice_command], holding the lower-cased
    and trimmed text and the correlation id of that call and the source
    "voice_command". *)
Theorem history_records_requests {N : PyStr.Text} (O : oracle) (calls : list call) (self : engine)
    (w : world) (entries : list log_entry) :
  history_entries self w = Some entries →
  ∃ added,
    history_entries (perform_all O (self, w) calls).1 (perform_all O (self, w) calls).2
    = Some (entries ++ added)
    ∧ map (λ entry, (command entry, cve_id entry)) added = requests calls
    ∧ Forall (λ entry, source entry = "voice_command") added.
Proof.
  revert self w entries. induction calls as [| c calls IH]; intros self w entries Hread.
  - exists []. simpl. by rewrite app_nil_r.
  - rewrite perform_all_cons.
    destruct c as [command_text cve | trigger script_path description |];
      unfold perform; cbn [fst snd].
    + destruct (IH self _ _ (process_voice_command_entries O self command_text cve w _ Hread))
        as (added & Hafter & Hmap & Hsrc).
      eexists (_ :: added). split_and!.
      * by rewrite Hafter, <- app_assoc.
      * simpl. by rewrite Hmap.
      * by constructor.
    + apply (IH (add_custom_command self trigger script_path description) w entries Hread).
    + destruct (history_entries_items _ _ _ Hread) as (items & Hh & Hload).
      rewrite (get_command_history_run self w items Hh). simpl.
      apply IH. eapply history_entries_frame; [exact Hh | exact Hload | |]; simpl.
      * rewrite lookup_insert_ne; [done |]. apply fresh_ne. eauto.
      * intros l Hne Hsome. rewrite lookup_insert_ne; [done |]. by apply fresh_ne.
Qed.

Lemma history_records_requests_sample :
  history_entries sample_engine sample_world = Some []
  ∧ ∃ added,
      history_entries
        (perform_all no_scripts (sample_engine, sample_world)
           [CallProcess "  Status Report " (Some "CVE-2025-55182"); CallGetHistory;
            CallProcess "xyzzy" None]).1
        (perform_all no_scripts (sample_engine, sample_world)
           [CallProcess "  Status Report " (Some "CVE-2025-55182"); CallGetHistory;
            CallProcess "xyzzy" None]).2
      = Some ([] ++ added)
      ∧ map (λ entry, (command entry, cve_id entry)) added
        = [("status report", Some "CVE-2025-55182"); ("xyzzy", None)]
      ∧ Forall (λ entry, source entry = "voice_command") added.
Proof.
  assert (H : history_entries sample_engine sample_world = Some []) by by vm_compute.
  split; [exact H |].
  exact (history_records_requests no_scripts
           [CallProcess "  Status Report " (Some "CVE-2025-55182"); CallGetHistory;
            CallProcess "xyzzy" None]
           sample_engine sample_world [] H).
Defined.

(** ** Engines in use *)

(** An engine that [__init__] returned answers every command with a
    string, whatever calls were made on it before and whatever the outside
    does: no exception leaves [process_voice_command]. *)
Theorem started_engine_never_raises {N : PyStr.Text} (O : oracle) (dir : string) (w0 : world)
    (self : engine) (w : world) (calls : list call) (command_text : string)
    (cve_id : option string) :
  (∃ vars, heap w0 !! os_environ = Some (PyEnviron vars)) →
  __init__ O dir w0 = (Returned self, w) →
  ∃ reply,
    run_in (process_voice_command O (perform_all O (self, w) calls).1 command_text cve_id)
           (perform_all O (self, w) calls).2
    = Returned reply.
Proof.
  intros Henv Hinit.
  pose proof (engine_ok_perform_all O calls (self, w) (__init___ok O dir w0 self w Henv Hinit))
    as [[[items Hh] _] Hwl].
  unfold run_in, process_voice_command, bind.
  rewrite (_log_command_run O _ _ _ _ items Hh). cbv zeta.
  destruct (_match_command_returns _ (PyStr.strip (PyStr.lower command_text)) Hwl) as [r Hr].
  rewrite Hr. unfold of_outcome. destruct r as [c |].
  - apply (_execute_command_returns O).
  - by eexists.
Qed.

Lemma started_engine_never_raises_sample :
  (∃ vars, heap (initial_world ∅) !! os_environ = Some (PyEnviron vars))
  ∧ __init__ read_only_logs "scripts" (initial_world ∅) = (Returned sample_engine, sample_world)
  ∧ ∃ reply,
      run_in (process_voice_command read_only_logs
                (perform_all read_only_logs (sample_engine, sample_world)
                   [CallAddCustom "" "" ""; CallProcess "ack" None]).1
                "acknowledge" None)
             (perform_all read_only_logs (sample_engine, sample_world)
                [CallAddCustom "" "" ""; CallProcess "ack" None]).2
      = Returned reply.
Proof.
  assert (H1 : ∃ vars, heap (initial_world ∅) !! os_environ = Some (PyEnviron vars))
    by (eexists; by vm_compute).
  assert (H2 : __init__ read_only_logs "scripts" (initial_world ∅)
               = (Returned sample_engine, sample_world)) by by vm_compute.
  split_and!; [exact H1 | exact H2 |].
  exact (started_engine_never_raises read_only_logs "scripts" (initial_world ∅)
           sample_engine sample_world [CallAddCustom "" "" ""; CallProcess "ack" None]
           "acknowledge" None H1 H2).
Defined.

(** ** Making engines *)

(** [CommandEngine(dir)] asks once for the directory to be made and
    touches no file and no object that exists.  When the directory cannot
    be made the exception leaves the constructor; otherwise the engine
    has the given directory, the default whitelist and a history that is
    a new, empty list. *)
Theorem constructor_outcome (O : oracle) (dir : string) (w : world) :
  let r := __init__ O dir w in
  trace r.2 = trace w ++ [EvMakedirs dir (fs_makedirs O (trace w) dir)]
  ∧ files r.2 = files w
  ∧ (∀ l, is_Some (heap w !! l) → heap r.2 !! l = heap w !! l)
  ∧ (∀ e, fs_makedirs O (trace w) dir = Raised e → r.1 = Raised e)
  ∧ (fs_makedirs O (trace w) dir = Returned tt →
     ∃ self, r.1 = Returned self
             ∧ scripts_dir self = dir
             ∧ command_whitelist self = default_whitelist
             ∧ heap w !! command_history self = None
             ∧ history_entries self r.2 = Some []).
Proof.
  cbv zeta. unfold __init__, os_makedirs, alloc, ask, of_outcome, bind, ret. simpl.
  destruct (fs_makedirs O (trace w) dir) as [[] | e]; simpl.
  - split_and!; [done | done | | done |].
    + intros l Hl. rewrite lookup_insert_ne; [done |]. by apply fresh_ne.
    + intros _. eexists. split_and!; [reflexivity | done | done | apply fresh_unused |].
      unfold history_entries, history_items. simpl. by rewrite lookup_insert_eq.
  - split_and!; [done | done | | by intros e' [= ->] | done].
    intros l Hl. rewrite lookup_insert_ne; [done |]. by apply fresh_ne.
Qed.

Lemma constructor_outcome_sample :
  fs_makedirs (calm 0 "") (trace (initial_world ∅)) "scripts" = Returned tt
  ∧ ∃ self, (__init__ (calm 0 "") "scripts" (initial_world ∅)).1 = Returned self
            ∧ scripts_dir self = "scripts"
            ∧ command_whitelist self = default_whitelist
            ∧ heap (initial_world ∅) !! command_history self = None
            ∧ history_entries self (__init__ (calm 0 "") "scripts" (initial_world ∅)).2
              = Some [].
Proof.
  split; [reflexivity |].
  exact (proj2 (proj2 (proj2 (proj2
           (constructor_outcome (calm 0 "") "scripts" (initial_world ∅))))) eq_refl).
Defined.

(** Engines do not share their history: whatever is done with an engine
    made later, the history of an engine that was there before holds
    what it held. *)
Theorem engines_have_separate_histories {N : PyStr.Text} (O : oracle) (first : engine) (w : world)
    (items : list loc) (dir : string) (second : engine) (w1 : world) (calls : list call) :
  heap w !! command_history first = Some (PyList items) →
  __init__ O dir w = (Returned second, w1) →
  command_history second ≠ command_history first
  ∧ heap (perform_all O (second, w1) calls).2 !! command_history first
    = Some (PyList items).
Proof.
  intros Hh. unfold __init__, os_makedirs, alloc, ask, of_outcome, bind, ret. simpl.
  destruct (fs_makedirs O (trace w) dir) as [[] | e]; simpl; [| done].
  intros [= <- <-].
  assert (Hne : fresh (dom (heap w)) ≠ command_history first) by (apply fresh_ne; eauto).
  split; [done |].
  set (second := Engine dir (fresh (dom (heap w))) default_whitelist).
  set (w1 := World _ _ _).
  assert (H1 : heap w1 !! command_history second = Some (PyList []))
    by apply lookup_insert_eq.
  destruct (perform_all_history O calls second w1 [] H1) as (_ & _ & Hkeep).
  rewrite Hkeep; simpl.
  - by rewrite lookup_insert_ne.
  - done.
  - rewrite lookup_insert_ne by done. eauto.
Qed.

Lemma engines_have_separate_histories_sample :
  let second := Engine "other" 3%positive default_whitelist in
  let w1 := (__init__ (calm 0 "") "other" sample_world).2 in
  heap sample_world !! command_history sample_engine = Some (PyList [])
  ∧ __init__ (calm 0 "") "other" sample_world = (Returned second, w1)
  ∧ command_history second ≠ command_history sample_engine
  ∧ heap (perform_all (calm 0 "") (second, w1) [CallProcess "ack" None]).2
      !! command_history sample_engine
    = Some (PyList []).
Proof.
  cbv zeta.
  assert (H1 : heap sample_world !! command_history sample_engine = Some (PyList []))
    by by vm_compute.
  assert (H2 : __init__ (calm 0 "") "other" sample_world
               = (Returned (Engine "other" 3%positive default_whitelist),
                  (__init__ (calm 0 "") "other" sample_world).2)) by by vm_compute.
  split_and!; [exact H1 | exact H2 | |];
    apply (engines_have_separate_histories (calm 0 "") sample_engine sample_world []
             "other" _ _ [CallProcess "ack" None] H1 H2).
Defined.

Lemma __init___run (O : oracle) (dir : string) (w : world) :
  __init__ O dir w
  = let l := fresh (dom (heap w)) in
    let w1 := World (<[l := PyList []]> (heap w)) (files w)
                    (trace w ++ [EvMakedirs dir (fs_makedirs O (trace w) dir)]) in
    match fs_makedirs O (trace w) dir with
    | Returned _ => (Returned (Engine dir l default_whitelist), w1)
    | Raised e => (Raised e, w1)
    end.
Proof.
  unfold __init__, os_makedirs, alloc, ask, of_outcome, bind, ret. simpl.
  by destruct (fs_makedirs O (trace w) dir) as [[] | e].
Qed.

Lemma demo_command_handler_run {N : PyStr.Text} (O : oracle) (command : string) (w : world) :
  demo_command_handler O command w
  = match __init__ O "scripts" w with
    | (Returned engine, w1) =>
        process_voice_command O engine command (Some "CVE-2025-55182") w1
    | (Raised e, w1) => (Raised e, w1)
    end.
Proof. reflexivity. Qed.

(** [demo_command_handler] makes its own engine each time: it raises
    when the scripts directory cannot be made, otherwise it returns a
    reply, and in either case every engine that exists keeps its history
    and every object its contents, so what it is told is recorded in no
    history that outlives the call. *)
Theorem demo_handler_starts_afresh {N : PyStr.Text} (O : oracle) (command : string) (w : world) :
  (∀ e, fs_makedirs O (trace w) "scripts" = Raised e →
        run_in (demo_command_handler O command) w = Raised e)
  ∧ (fs_makedirs O (trace w) "scripts" = Returned tt →
     ∃ reply, run_in (demo_command_handler O command) w = Returned reply)
  ∧ (∀ l, is_Some (heap w !! l) →
          heap (demo_command_handler O command w).2 !! l = heap w !! l).
Proof.
  unfold run_in. rewrite demo_command_handler_run, __init___run. cbv zeta.
  destruct (fs_makedirs O (trace w) "scripts") as [[] | e].
  - set (self := Engine "scripts" (fresh (dom (heap w))) default_whitelist).
    set (w1 := World _ _ _).
    assert (H1 : heap w1 !! command_history self = Some (PyList []))
      by apply lookup_insert_eq.
    split_and!; [done | |].
    + intros _. unfold process_voice_command, bind.
      rewrite (_log_command_run O _ _ _ _ [] H1). cbv zeta.
      destruct (_match_command_returns default_whitelist
                  (PyStr.strip (PyStr.lower command)) default_whitelist_ok) as [r Hr].
      change (command_whitelist self) with default_whitelist.
      rewrite Hr. unfold of_outcome. destruct r as [c |].
      * apply (_execute_command_returns O).
      * by eexists.
    + intros l Hl.
      assert (Hne : fresh (dom (heap w)) ≠ l) by by apply fresh_ne.
      destruct (process_voice_command_history O self command (Some "CVE-2025-55182") w1 [] H1)
        as (_ & _ & Hkeep).
      rewrite Hkeep; simpl; [by rewrite lookup_insert_ne | done |].
      by rewrite lookup_insert_ne.
  - split_and!; [by intros e' [= ->] | done |].
    intros l Hl. simpl. rewrite lookup_insert_ne; [done |]. by apply fresh_ne.
Qed.

Lemma demo_handler_starts_afresh_sample :
  fs_makedirs (calm 0 "") (trace sample_world) "scripts" = Returned tt
  ∧ ∃ reply, run_in (demo_command_handler (calm 0 "") "status report") sample_world
             = Returned reply.
Proof.
  split; [reflexivity |].
  exact (proj1 (proj2 (demo_handler_starts_afresh (calm 0 "") "status report" sample_world))
               eq_refl).
Defined.

(** ** The voice caller *)

(** The engine treats a text and its lower-cased, trimmed form alike. *)
Lemma process_voice_command_normal_form {N : PyStr.Text} {L : PyStr.Lawful N}
    (O : oracle) self command_text cve :
  process_voice_command O self (PyStr.strip (PyStr.lower command_text)) cve
  = process_voice_command O self command_text cve.
Proof. unfold process_voice_command. by rewrite PyStr.law_normal_idem. Qed.

(** [handle_voice_response] raises nothing, whatever the callback does.
    For a call id it does not know the reply is the apology and the
    callback of no call is run; for a call without callback the reply
    says so; an exception of the callback becomes the error reply, with
    what the callback did until then left done; otherwise the reply is
    the callback's, for the lower-cased and trimmed text. *)
Theorem voice_response_contains_faults {N : PyStr.Text} {float : Type} (self : voice_caller float)
    (call_id transcribed_text : string) (w : world) :
  (∃ reply, run_in (handle_voice_response self call_id transcribed_text) w = Returned reply)
  ∧ (active_calls self !! call_id = None →
     handle_voice_response self call_id transcribed_text w
     = (Returned "Sorry, I don't recognize this call session.", w))
  ∧ (∀ info, active_calls self !! call_id = Some info → callback info = None →
     handle_voice_response self call_id transcribed_text w
     = (Returned "Command received but no handler configured.", w))
  ∧ (∀ info handler e w',
       active_calls self !! call_id = Some info → callback info = Some handler →
       handler (PyStr.strip (PyStr.lower transcribed_text)) w = (Raised e, w') →
       handle_voice_response self call_id transcribed_text w
       = (Returned "Sorry, there was an error processing your command.", w'))
  ∧ (∀ info handler reply w',
       active_calls self !! call_id = Some info → callback info = Some handler →
       handler (PyStr.strip (PyStr.lower transcribed_text)) w = (Returned reply, w') →
       handle_voice_response self call_id transcribed_text w = (Returned reply, w')).
Proof.
  unfold run_in, handle_voice_response. split_and!.
  - destruct (active_calls self !! call_id) as [info |]; [| by eexists].
    destruct (callback info) as [handler |]; [| by eexists].
    unfold try_except.
    destruct (handler (PyStr.strip (PyStr.lower transcribed_text)) w) as [[reply | e] w'];
      by eexists.
  - by intros ->.
  - by intros info -> ->.
  - intros info handler e w' -> -> Hrun. unfold try_except. by rewrite Hrun.
  - intros info handler reply w' -> -> Hrun. unfold try_except. by rewrite Hrun.
Qed.

Lemma voice_response_contains_faults_unknown :
  let self := VoiceCaller "key" None (∅ : gmap string (call_info nat)) in
  active_calls self !! "call-7" = None
  ∧ handle_voice_response self "call-7" "Start Patching" sample_world
    = (Returned "Sorry, I don't recognize this call session.", sample_world).
Proof.
  cbv zeta. split; [reflexivity |].
  exact (proj1 (proj2 (voice_response_contains_faults
                         (VoiceCaller "key" None (∅ : gmap string (call_info nat)))
                         "call-7" "Start Patching" sample_world))
               eq_refl).
Defined.

(** With the callback that [_process_vulnerability] installs, the reply
    of [handle_voice_response] on an engine that satisfies its invariant
    is the reply of [process_voice_command] for the text as it was
    transcribed, with the same effects: lower-casing and trimming the
    text twice changes nothing. *)
Theorem voice_response_is_engine_reply {N : PyStr.Text} {L : PyStr.Lawful N} {float : Type}
    (O : oracle)
    (self : voice_caller float) (call_id transcribed_text : string) (info : call_info float)
    (command_engine : engine) (cve_id : string) (w : world) :
  active_calls self !! call_id = Some info →
  callback info = Some (command_callback O command_engine cve_id) →
  engine_ok command_engine w →
  handle_voice_response self call_id transcribed_text w
  = process_voice_command O command_engine transcribed_text (Some cve_id) w.
Proof.
  intros Hcall Hcb [[[items Hh] _] Hwl].
  unfold handle_voice_response. rewrite Hcall, Hcb. unfold command_callback, try_except.
  rewrite process_voice_command_normal_form.
  assert (Hret : ∃ reply,
            run_in (process_voice_command O command_engine transcribed_text (Some cve_id)) w
            = Returned reply).
  { unfold run_in, process_voice_command, bind.
    rewrite (_log_command_run O _ _ _ _ items Hh). cbv zeta.
    destruct (_match_command_returns _ (PyStr.strip (PyStr.lower transcribed_text)) Hwl)
      as [r Hr].
    rewrite Hr. unfold of_outcome. destruct r as [c |].
    - apply (_execute_command_returns O).
    - by eexists. }
  destruct Hret as [reply Hreply]. unfold run_in in Hreply.
  destruct (process_voice_command O command_engine transcribed_text (Some cve_id) w)
    as [r w']. simpl in Hreply. by subst r.
Qed.

Lemma voice_response_is_engine_reply_sample :
  let info := CallInfo "+15550100" 0 (Some (command_callback (calm 0 "") sample_engine
                                              "CVE-2025-55182")) "active" None in
  let self := VoiceCaller "key" None ({[ "call-1" := info ]} : gmap string (call_info nat)) in
  active_calls self !! "call-1" = Some info
  ∧ callback info = Some (command_callback (calm 0 "") sample_engine "CVE-2025-55182")
  ∧ engine_ok sample_engine sample_world
  ∧ handle_voice_response self "call-1" "  Quarantine SERVERS " sample_world
    = process_voice_command (calm 0 "") sample_engine "  Quarantine SERVERS "
        (Some "CVE-2025-55182") sample_world.
Proof.
  cbv zeta.
  assert (H1 : ({[ "call-1" := CallInfo "+15550100" 0
                     (Some (command_callback (calm 0 "") sample_engine "CVE-2025-55182"))
                     "active" None ]} : gmap string (call_info nat)) !! "call-1"
               = Some (CallInfo "+15550100" 0
                         (Some (command_callback (calm 0 "") sample_engine "CVE-2025-55182"))
                         "active" None)) by apply lookup_singleton_eq.
  split_and!; [exact H1 | reflexivity | exact sample_ok |].
  exact (voice_response_is_engine_reply (calm 0 "")
           (VoiceCaller "key" None _) "call-1" "  Quarantine SERVERS " _
           sample_engine "CVE-2025-55182" sample_world H1 eq_refl sample_ok).
Defined.

(** ** The mock caller *)

Lemma str_int_inj (m n : nat) : str_int m = str_int n → m = n.
Proof.
  unfold str_int. intros Heq. apply Unsigned.to_uint_inj.
  assert (Hsome : Some (Nat.to_uint m) = Some (Nat.to_uint n))
    by (rewrite <- !NilEmpty.usu; by rewrite Heq).
  by injection Hsome.
Qed.

(** The mock caller names a call after its counter, which each call
    advances by one, also when the callback raises: two calls get the
    same id only from callers whose counters agree, so the ids of
    successive calls differ.  A call that returns has run the callback,
    if there is one, on "start patching" and on nothing else. *)
Theorem mock_call_ids_follow_the_counter (a b : mock_voice_caller)
    (phone_a script_a phone_b script_b : string)
    (callback_a callback_b : option (string → M string)) (wa wb : world)
    (id_a id_b : string) (wa' wb' : world) :
  (place_call a phone_a script_a callback_a).2 wa = (Returned id_a, wa') →
  (place_call b phone_b script_b callback_b).2 wb = (Returned id_b, wb') →
  call_counter (place_call a phone_a script_a callback_a).1 = call_counter a + 1
  ∧ id_a = "mock_call_" +:+ str_int (call_counter a + 1)
  ∧ (id_a = id_b ↔ call_counter a = call_counter b)
  ∧ match callback_a with
    | Some handler => ∃ reply, handler "start patching" wa = (Returned reply, wa')
    | None => wa' = wa
    end.
Proof.
  unfold place_call, bind, ret. simpl.
  intros Ha Hb.
  assert (Ha' : id_a = "mock_call_" +:+ str_int (call_counter a + 1)
                ∧ match callback_a with
                  | Some handler => ∃ reply, handler "start patching" wa = (Returned reply, wa')
                  | None => wa' = wa
                  end).
  { destruct callback_a as [handler |].
    - destruct (handler "start patching" wa) as [[reply | e] w1]; [| done].
      injection Ha as <- <-. eauto.
    - by injection Ha as <- <-. }
  assert (Hb' : id_b = "mock_call_" +:+ str_int (call_counter b + 1)).
  { destruct callback_b as [handler |].
    - destruct (handler "start patching" wb) as [[reply | e] w1]; [| done].
      by injection Hb as <- <-.
    - by injection Hb as <- <-. }
  destruct Ha' as (-> & Hcb). subst id_b.
  split_and!; [done | done | | done].
  split.
  - intros Heq. apply (inj (String.append "mock_call_")) in Heq.
    apply str_int_inj in Heq. lia.
  - by intros ->.
Qed.

Lemma mock_call_ids_follow_the_counter_sample :
  let first := place_call (MockVoiceCaller 0) "+15550100" "Security Alert!"
                 (Some (command_callback (calm 0 "") sample_engine "CVE-2025-55182")) in
  let second := place_call first.1 "+15550100" "Security Alert!" None in
  first.2 sample_world = (Returned "mock_call_1", (first.2 sample_world).2)
  ∧ second.2 (first.2 sample_world).2 = (Returned "mock_call_2", (first.2 sample_world).2)
  ∧ ("mock_call_1" = "mock_call_2" ↔ 0 = 1).
Proof.
  cbv zeta.
  set (first := place_call (MockVoiceCaller 0) "+15550100" "Security Alert!"
                  (Some (command_callback (calm 0 "") sample_engine "CVE-2025-55182"))).
  assert (H1 : first.2 sample_world = (Returned "mock_call_1", (first.2 sample_world).2))
    by by vm_compute.
  assert (H2 : (place_call first.1 "+15550100" "Security Alert!" None).2
                 (first.2 sample_world).2
               = (Returned "mock_call_2", (first.2 sample_world).2)) by by vm_compute.
  split_and!; [exact H1 | exact H2 |].
  exact (proj1 (proj2 (proj2 (mock_call_ids_follow_the_counter
                                (MockVoiceCaller 0) (MockVoiceCaller 1)
                                "+15550100" "Security Alert!" "+15550100" "Security Alert!"
                                (Some (command_callback (calm 0 "") sample_engine
                                         "CVE-2025-55182"))
                                None sample_world (first.2 sample_world).2
                                "mock_call_1" "mock_call_2"
                                (first.2 sample_world).2 (first.2 sample_world).2
                                H1 H2)))).
Defined.

(** A mock call placed with the engine's callback records exactly one
    request in the history of that engine: "start patching", with the
    correlation id of the alert. *)
Theorem mock_call_records_start_patching {N : PyStr.Text} {L : PyStr.Lawful N} (O : oracle)
    (self : mock_voice_caller) (phone script : string) (command_engine : engine) (cve_id : string) (w : world)
    (entries : list log_entry) :
  engine_ok command_engine w →
  history_entries command_engine w = Some entries →
  let call := place_call self phone script (Some (command_callback O command_engine cve_id)) in
  call.1 = MockVoiceCaller (call_counter self + 1)
  ∧ (call.2 w).1 = Returned ("mock_call_" +:+ str_int (call_counter self + 1))
  ∧ history_entries command_engine (call.2 w).2
    = Some (entries ++ [LogEntry (clock_now O (trace w)) "start patching" (Some cve_id)
                                 "voice_command"]).
Proof.
  intros [[[items Hh] _] Hwl] Hread. cbv zeta.
  pose proof (process_voice_command_entries O command_engine "start patching" (Some cve_id)
                w entries Hread) as Hafter.
  rewrite (PyStr.law_lower_ascii "start patching"), PyStr.law_strip_ascii in Hafter by done.
  change (PyStr.ascii_strip (PyStr.ascii_lower "start patching")) with "start patching"
    in Hafter.
  assert (Hret : ∃ reply,
            run_in (process_voice_command O command_engine "start patching" (Some cve_id)) w
            = Returned reply).
  { unfold run_in, process_voice_command, bind.
    rewrite (_log_command_run O _ _ _ _ items Hh). cbv zeta.
    destruct (_match_command_returns _ (PyStr.strip (PyStr.lower "start patching")) Hwl)
      as [r Hr].
    rewrite Hr. unfold of_outcome. destruct r as [c |].
    - apply (_execute_command_returns O).
    - by eexists. }
  destruct Hret as [reply Hreply]. unfold run_in in Hreply.
  unfold place_call, command_callback, bind, ret. cbn [fst snd call_counter].
  destruct (process_voice_command O command_engine "start patching" (Some cve_id) w)
    as [r w'] eqn:Hrun. simpl in Hreply. subst r. simpl.
  split_and!; [done | done |]. exact Hafter.
Qed.

Lemma mock_call_records_start_patching_sample :
  engine_ok sample_engine sample_world
  ∧ history_entries sample_engine sample_world = Some []
  ∧ history_entries sample_engine
      ((place_call (MockVoiceCaller 0) "+15550100" "Security Alert!"
          (Some (command_callback no_scripts sample_engine "CVE-2025-55182"))).2
         sample_world).2
    = Some ([] ++ [LogEntry (clock_now no_scripts (trace sample_world)) "start patching"
                            (Some "CVE-2025-55182") "voice_command"]).
Proof.
  assert (H : history_entries sample_engine sample_world = Some []) by by vm_compute.
  split_and!; [exact sample_ok | exact H |].
  exact (proj2 (proj2 (mock_call_records_start_patching no_scripts (MockVoiceCaller 0)
                         "+15550100" "Security Alert!" sample_engine "CVE-2025-55182"
                         sample_world [] sample_ok H))).
Defined.

(** ** Triggers in any letter case, between other words *)

(** A trigger that has no white space at either end is found in every
    text of ASCII characters that contains it in any mix of upper and
    lower case, between any other words and any surrounding white space:
    the engine resolves the text by direct match, to that trigger or to
    one registered earlier. *)
Theorem trigger_is_found_in_any_case {N : PyStr.Text} {L : PyStr.Lawful N}
    (whitelist : PyDict.dict command_entry) (t spoken command_text : string) :
  t ∈ PyDict.keys whitelist →
  t ≠ "" → PyStr.ascii_lstrip t = t → PyStr.ascii_rstrip t = t →
  PyStr.is_ascii command_text = true →
  PyStr.lower spoken = t →
  PyStr.str_in spoken command_text = true →
  ∃ m, _match_command whitelist (PyStr.strip (PyStr.lower command_text)) = Returned (Some m)
       ∧ PyStr.str_in (trigger m) (PyStr.strip (PyStr.lower command_text)) = true.
Proof.
  intros Hin Ht Hl Hr Hascii Hspoken Hocc.
  assert (Hhit : PyStr.str_in t (PyStr.strip (PyStr.lower command_text)) = true).
  { rewrite (PyStr.law_lower_ascii command_text) by done.
    rewrite PyStr.law_strip_ascii by by rewrite PyStrAscii.is_ascii_lower.
    apply PyStrOccur.str_in_strip; [done..|]. rewrite <- Hspoken.
    rewrite PyStr.law_lower_ascii by by apply (PyStrAscii.is_ascii_str_in _ command_text).
    by apply PyStrOccur.str_in_lower. }
  unfold _match_command.
  destruct (direct_match whitelist (PyStr.strip (PyStr.lower command_text))) as [m |] eqn:Hd.
  - exists m. split; [done |].
    by destruct (direct_match_entry _ _ _ Hd) as (e & _ & _ & Hm).
  - exfalso. pose proof (proj1 (direct_match_None _ _) Hd t Hin) as Hno. congruence.
Qed.

Lemma trigger_is_found_in_any_case_shout :
  ("emergency shutdown" ∈ PyDict.keys default_whitelist)
  ∧ PyStr.lower "EMERGENCY Shutdown" = "emergency shutdown"
  ∧ PyStr.str_in "EMERGENCY Shutdown" "  Do an EMERGENCY Shutdown, please!  " = true
  ∧ ∃ m, _match_command default_whitelist
           (PyStr.strip (PyStr.lower "  Do an EMERGENCY Shutdown, please!  "))
         = Returned (Some m)
         ∧ PyStr.str_in (trigger m)
             (PyStr.strip (PyStr.lower "  Do an EMERGENCY Shutdown, please!  ")) = true.
Proof.
  assert (H : "emergency shutdown" ∈ PyDict.keys default_whitelist)
    by by apply (bool_decide_unpack _).
  split_and!; [exact H | reflexivity | reflexivity |].
  exact (trigger_is_found_in_any_case default_whitelist "emergency shutdown"
           "EMERGENCY Shutdown" "  Do an EMERGENCY Shutdown, please!  "
           H ltac:(discriminate) eq_refl eq_refl eq_refl eq_refl eq_refl).
Defined.

(** ** Simulated conversations *)

Lemma process_voice_command_returns {N : PyStr.Text} (O : oracle) self command_text cve w :
  engine_ok self w →
  ∃ reply w', process_voice_command O self command_text cve w = (Returned reply, w').
Proof.
  intros [[[items Hh] _] Hwl].
  assert (Hret : ∃ reply, run_in (process_voice_command O self command_text cve) w
                          = Returned reply).
  { unfold run_in, process_voice_command, bind.
    rewrite (_log_command_run O _ _ _ _ items Hh). cbv zeta.
    destruct (_match_command_returns _ (PyStr.strip (PyStr.lower command_text)) Hwl)
      as [r Hr].
    rewrite Hr. unfold of_outcome. destruct r as [c |].
    - apply (_execute_command_returns O).
    - by eexists. }
  destruct Hret as [reply Hreply]. unfold run_in in Hreply.
  destruct (process_voice_command O self command_text cve w) as [r w'].
  simpl in Hreply. subst r. eauto.
Qed.

Lemma process_voice_command_keeps_ok {N : PyStr.Text} (O : oracle) self command_text cve w :
  engine_ok self w → engine_ok self (process_voice_command O self command_text cve w).2.
Proof. intros Hok. exact (engine_ok_perform O (self, w) (CallProcess command_text cve) Hok). Qed.

Lemma run_if_keyword_run {N : PyStr.Text} keywords content (handler : string → M string) w :
  run_if_keyword keywords content handler w
  = if existsb (λ keyword, PyStr.str_in keyword (PyStr.lower content)) keywords
    then try_except (let* response := handler (PyStr.lower content) in ret tt)
                    (λ e, ret tt) w
    else (Returned tt, w).
Proof.
  induction keywords as [| keyword rest IH]; simpl; [done |].
  by destruct (PyStr.str_in keyword (PyStr.lower content)).
Qed.

(** A text in which a keyword of the fuzzy table occurs is never
    answered with [None]. *)
Lemma keyword_is_matched whitelist command_text k :
  whitelist_ok whitelist →
  k ∈ PyDict.keys fuzzy_matches →
  PyStr.str_in k command_text = true →
  ∃ m, _match_command whitelist command_text = Returned (Some m).
Proof.
  intros Hok Hk Hocc.
  destruct (_match_command_returns whitelist command_text Hok) as [[m |] Hr]; [by exists m |].
  exfalso. unfold _match_command in Hr.
  destruct (direct_match whitelist command_text); [done |].
  apply fuzzy_match_None_inv in Hr.
  pose proof (occurs_nowhere_elem _ _ Hr k Hk). congruence.
Qed.

Lemma command_keywords_are_fuzzy :
  Forall (λ k, k ∈ PyDict.keys fuzzy_matches ∧ k ≠ "" ∧ PyStr.is_graphic k = true)
         command_keywords.
Proof.
  unfold command_keywords.
  repeat (apply Forall_cons; split;
          [split_and!; [by apply (bool_decide_unpack _) | done | done] |]).
  apply Forall_nil. done.
Qed.

Lemma existsb_keyword {N : PyStr.Text} content :
  existsb (λ keyword, PyStr.str_in keyword (PyStr.lower content)) command_keywords = true →
  ∃ k, k ∈ PyDict.keys fuzzy_matches ∧ k ≠ "" ∧ PyStr.is_graphic k = true
       ∧ PyStr.str_in k (PyStr.lower content) = true.
Proof.
  intros (k & Hin & Hocc)%existsb_exists. apply list_elem_of_In in Hin.
  pose proof command_keywords_are_fuzzy as Hall. rewrite Forall_forall in Hall.
  destruct (Hall k Hin) as (H1 & H2 & H3). by exists k.
Qed.

Lemma _process_agent_conversation_cons {N : PyStr.Text} t rest (handler : string → M string) w :
  _process_agent_conversation (t :: rest) handler w
  = if bool_decide (turn_get t "role" = Some "user") && PyStr.truthy (turn_get t "content")
    then match run_if_keyword command_keywords (default "" (turn_get t "content")) handler w with
         | (Returned _, w1) => _process_agent_conversation rest handler w1
         | (Raised e, w1) => (Raised e, w1)
         end
    else _process_agent_conversation rest handler w.
Proof.
  simpl. unfold bind at 1.
  by destruct (bool_decide (turn_get t "role" = Some "user")
               && PyStr.truthy (turn_get t "content")).
Qed.

Lemma run_if_keyword_engine {N : PyStr.Text} (O : oracle) command_engine cve content w :
  engine_ok command_engine w →
  run_if_keyword command_keywords content (command_callback O command_engine cve) w
  = if existsb (λ keyword, PyStr.str_in keyword (PyStr.lower content)) command_keywords
    then (Returned tt,
          (process_voice_command O command_engine (PyStr.lower content) (Some cve) w).2)
    else (Returned tt, w).
Proof.
  intros Hok. rewrite run_if_keyword_run.
  destruct (existsb _ command_keywords); [| done].
  unfold try_except, bind, command_callback, ret.
  destruct (process_voice_command_returns O command_engine (PyStr.lower content)
              (Some cve) w Hok) as (reply & w' & Hrun).
  by rewrite Hrun.
Qed.

Lemma filter_command_turns_cons {N : PyStr.Text} t turns :
  List.filter is_command_turn (t :: turns)
  = if is_command_turn t then t :: List.filter is_command_turn turns
    else List.filter is_command_turn turns.
Proof. reflexivity. Qed.

(** [_process_agent_conversation], given the engine's callback, returns
    without raising; it hands to the engine, in order, the lower-cased
    content of exactly those turns whose role is "user", whose content is
    a non-empty string and holds one of the six keywords, once each; the
    history grows by these requests and by nothing else, and each of them
    resolves to a command, so none is answered with the help text. *)
Theorem agent_conversation_commands {N : PyStr.Text} {L : PyStr.Lawful N} (O : oracle)
    (turns : list turn) (command_engine : engine) (cve : string) (w : world) (entries : list log_entry) :
  engine_ok command_engine w →
  history_entries command_engine w = Some entries →
  let r := _process_agent_conversation turns (command_callback O command_engine cve) w in
  r.1 = Returned tt
  ∧ ∃ added,
      history_entries command_engine r.2 = Some (entries ++ added)
      ∧ map command added
        = map (λ t, PyStr.strip (command_of_turn t)) (List.filter is_command_turn turns)
      ∧ Forall (λ entry,
                  cve_id entry = Some cve
                  ∧ ∃ m, _match_command (command_whitelist command_engine) (command entry)
                         = Returned (Some m))
               added.
Proof.
  cbv zeta. revert w entries.
  induction turns as [| t turns IH]; intros w entries Hok Hread.
  - simpl. split; [done |]. exists []. by rewrite app_nil_r.
  - rewrite _process_agent_conversation_cons, filter_command_turns_cons.
    unfold is_command_turn at 1.
    destruct (bool_decide (turn_get t "role" = Some "user")
              && PyStr.truthy (turn_get t "content")) eqn:Hgate;
      [| apply (IH w entries Hok Hread)].
    rewrite (run_if_keyword_engine O _ _ _ _ Hok). rewrite andb_true_l.
    set (content := default "" (turn_get t "content")) in *.
    destruct (existsb _ command_keywords) eqn:Hkw; [| apply (IH w entries Hok Hread)].
    pose proof (process_voice_command_keeps_ok O command_engine (PyStr.lower content)
                  (Some cve) w Hok) as Hok'.
    pose proof (process_voice_command_entries O command_engine (PyStr.lower content)
                  (Some cve) w entries Hread) as Hread'.
    destruct (IH _ _ Hok' Hread') as (Hret & added & Hafter & Hmap & Hall).
    split; [exact Hret |].
    eexists (_ :: added). split_and!.
    + by rewrite Hafter, <- app_assoc.
    + rewrite !map_cons, Hmap. unfold command_of_turn at 2. fold content.
      simpl command. by rewrite PyStr.law_lower_idem.
    + constructor; [| done]. simpl. split; [done |].
      destruct (existsb_keyword content Hkw) as (k & Hk & Hne & Hg & Hocc).
      destruct Hok as [_ Hwl].
      apply (keyword_is_matched _ _ k Hwl Hk).
      rewrite PyStr.law_lower_idem. by apply PyStr.law_strip_keeps.
Qed.

Lemma agent_conversation_commands_sample :
  let turns : list turn :=
    [ [("role", Some "agent"); ("content", Some "Security Alert! Say start patching.")];
      [("role", Some "user"); ("content", Some "What is the STATUS?")];
      [("role", Some "user"); ("content", None)];
      [("role", Some "user"); ("content", Some "ack")] ] in
  engine_ok sample_engine sample_world
  ∧ history_entries sample_engine sample_world = Some []
  ∧ ∃ added,
      history_entries sample_engine
        (_process_agent_conversation turns
           (command_callback no_scripts sample_engine "CVE-2025-55182") sample_world).2
      = Some ([] ++ added)
      ∧ map command added = ["what is the status?"].
Proof.
  cbv zeta.
  assert (H : history_entries sample_engine sample_world = Some []) by by vm_compute.
  split_and!; [exact sample_ok | exact H |].
  destruct (proj2 (agent_conversation_commands no_scripts
                     [ [("role", Some "agent");
                        ("content", Some "Security Alert! Say start patching.")];
                       [("role", Some "user"); ("content", Some "What is the STATUS?")];
                       [("role", Some "user"); ("content", None)];
                       [("role", Some "user"); ("content", Some "ack")] ]
                     sample_engine "CVE-2025-55182" sample_world [] sample_ok H))
    as (added & Hafter & Hmap & _).
  exists added. split; [exact Hafter | exact Hmap].
Defined.
